(** * InterviewIQ backend: the answer processor ([process_answer.py])

    A shallow embedding of the transcription script.  Python [str] values
    are sequences of Unicode code points; the script's interaction with
    the outside world (module import, filesystem, FFmpeg, the Whisper
    model, the clock, the two output streams) is threaded through a small
    state-and-exception monad whose state records everything the process
    did. *)

From Stdlib Require Import List Bool Arith NArith ZArith QArith Qround Qabs.
From Stdlib Require Import Lia Lqa.
From Stdlib Require Import Ascii String.
Import ListNotations.

Set Implicit Arguments.

(** ** Python strings *)

Module PyStr.

Local Open Scope N_scope.

(** A [str] is a list of code points. *)
Definition pystr := list N.

(** An ASCII literal of the source. *)
Definition py (s : string) : pystr :=
  List.map N_of_ascii (list_ascii_of_string s).

Definition eqb (a b : pystr) : bool :=
  if list_eq_dec N.eq_dec a b then true else false.

(** [str.isspace] on one code point: the ASCII table of CPython
    ([_Py_ascii_whitespace]) and [_PyUnicode_IsWhitespace] above it. *)
Definition isspace (c : N) : bool :=
  ((9 <=? c) && (c <=? 13)) || ((28 <=? c) && (c <=? 32))
  || (c =? 133) || (c =? 160) || (c =? 5760)
  || ((8192 <=? c) && (c <=? 8202))
  || (c =? 8232) || (c =? 8233) || (c =? 8239) || (c =? 8287)
  || (c =? 12288).

Fixpoint lstrip (s : pystr) : pystr :=
  match s with
  | [] => []
  | c :: r => if isspace c then lstrip r else s
  end.

Definition rstrip (s : pystr) : pystr := rev (lstrip (rev s)).

(** [s.strip()] *)
Definition strip (s : pystr) : pystr := rstrip (lstrip s).

(** [sep.join(parts)] *)
Fixpoint join (sep : pystr) (parts : list pystr) : pystr :=
  match parts with
  | [] => []
  | [x] => x
  | x :: rest => x ++ sep ++ join sep rest
  end.

(** [s.split()] with no argument: runs of whitespace separate the words,
    leading and trailing whitespace yields no empty word.  [cur] is the
    word being scanned, in reverse. *)
Fixpoint split_ws (cur : pystr) (s : pystr) : list pystr :=
  match s with
  | [] => match cur with [] => [] | _ => [rev cur] end
  | c :: r =>
      if isspace c
      then match cur with
           | [] => split_ws [] r
           | _ => rev cur :: split_ws [] r
           end
      else split_ws (c :: cur) r
  end.

Definition split (s : pystr) : list pystr := split_ws [] s.

Fixpoint startswith (sub s : pystr) : bool :=
  match sub, s with
  | [], _ => true
  | _ :: _, [] => false
  | a :: sub', b :: s' => (a =? b) && startswith sub' s'
  end.

Fixpoint find_from (s sub : pystr) (i : Z) : Z :=
  match s with
  | [] => match sub with [] => i | _ => (-1)%Z end
  | _ :: r => if startswith sub s then i else find_from r sub (i + 1)%Z
  end.

(** [s.find(sub)]: lowest index of an occurrence, or -1. *)
Definition find (s sub : pystr) : Z := find_from s sub 0%Z.

(** [sub in s] *)
Definition str_in (sub s : pystr) : bool := negb (find s sub =? -1)%Z.

Fixpoint rfind_from (s sub : pystr) (i best : Z) : Z :=
  match s with
  | [] => match sub with [] => i | _ => best end
  | _ :: r => rfind_from r sub (i + 1)%Z (if startswith sub s then i else best)
  end.

(** [s.rfind(sub)]: highest index of an occurrence, or -1. *)
Definition rfind (s sub : pystr) : Z := rfind_from s sub 0%Z (-1)%Z.

(** [s[i:j]] for [0 <= i]. *)
Definition slice (s : pystr) (i j : Z) : pystr :=
  firstn (Z.to_nat (j - i)) (skipn (Z.to_nat i) s).

(** [str(n)] for a non-negative integer. *)
Fixpoint digits (u : Decimal.uint) : pystr :=
  match u with
  | Decimal.Nil => []
  | Decimal.D0 r => 48 :: digits r
  | Decimal.D1 r => 49 :: digits r
  | Decimal.D2 r => 50 :: digits r
  | Decimal.D3 r => 51 :: digits r
  | Decimal.D4 r => 52 :: digits r
  | Decimal.D5 r => 53 :: digits r
  | Decimal.D6 r => 54 :: digits r
  | Decimal.D7 r => 55 :: digits r
  | Decimal.D8 r => 56 :: digits r
  | Decimal.D9 r => 57 :: digits r
  end.

Definition str_of_nat (n : nat) : pystr := digits (Nat.to_uint n).

Definition str_of_bool (b : bool) : pystr :=
  if b then py "True" else py "False".

(** [str.lower] maps every code point through the Unicode lower-case
    table.  On ASCII that is the usual shift of [A-Z]; the table for the
    other code points (whose entry may be several code points long, and
    for capital sigma depends on its neighbours) is a parameter: the
    mapping of the code point at position [i] of the whole string. *)
Section Lower.

Variable lower_table : pystr -> nat -> pystr.

Definition ascii_lower (c : N) : N :=
  if (65 <=? c) && (c <=? 90) then c + 32 else c.

Fixpoint lower_from (whole : pystr) (i : nat) (s : pystr) : pystr :=
  match s with
  | [] => []
  | c :: r =>
      (if c <? 128 then [ascii_lower c] else lower_table whole i)
        ++ lower_from whole (S i) r
  end.

Definition lower (s : pystr) : pystr := lower_from s 0%nat s.

End Lower.

End PyStr.
Import PyStr.

(** ** [os.path.splitext] *)

Module OsPath.

Inductive platform := Posix | Windows.

Definition sep (o : platform) : pystr :=
  match o with Posix => py "/" | Windows => py "\" end.

Definition altsep (o : platform) : option pystr :=
  match o with Posix => None | Windows => Some (py "/") end.

Definition extsep : pystr := py ".".

(** The loop of [genericpath._splitext] that skips the leading dots of the
    file name: [true] as soon as a character other than the dot is met
    before [dotIndex]; [n] bounds the iterations that remain. *)
Fixpoint name_before_dot (p : pystr) (filenameIndex : Z) (n : nat) : bool :=
  match n with
  | O => false
  | S n' =>
      if negb (eqb (slice p filenameIndex (filenameIndex + 1)) extsep)
      then true
      else name_before_dot p (filenameIndex + 1) n'
  end.

Definition splitext (o : platform) (p : pystr) : pystr * pystr :=
  let sepIndex := rfind p (sep o) in
  let sepIndex :=
    match altsep o with
    | Some a => Z.max sepIndex (rfind p a)
    | None => sepIndex
    end in
  let dotIndex := rfind p extsep in
  if (sepIndex <? dotIndex)%Z
     && name_before_dot p (sepIndex + 1) (Z.to_nat (dotIndex - (sepIndex + 1)))
  then (slice p 0 dotIndex, skipn (Z.to_nat dotIndex) p)
  else (p, []).

End OsPath.
Import OsPath.

(** ** Values the script exchanges with its environment *)

(** Exceptions: the class decides which [except] clause takes it, the
    message is [str(e)].  Only classes below [Exception] occur. *)
Inductive exn_class :=
| IndexError
| FileNotFoundError
| CalledProcessError
| RuntimeError
| ModuleNotFoundError
| OtherException (name : pystr).

Record exn := mkExn { exn_cls : exn_class; exn_str : pystr }.

(** What [json.dumps] receives: a dict from keys to strings, integers and
    floats, in insertion order. *)
Inductive jvalue :=
| JStr (s : pystr)
| JInt (z : Z)
| JFloat (q : Q).

Definition json := list (pystr * jvalue).

(** A line on standard error, or the traceback the interpreter writes for
    an exception nobody caught. *)
Inductive diag :=
| Line (s : pystr)
| Traceback (e : exn).

(** Calls to the external collaborators, in the order they were made. *)
Inductive call :=
| Mkstemp (path : pystr)
| SubprocessRun (args : list pystr)
| TimeTime
| LoadModel
| Transcribe (path : pystr)
| Remove (path : pystr).

(** The environment of one invocation: how each collaborator answers. *)
Record env := mkEnv {
  os_name : platform;
  (* how lower-casing treats the code points above ASCII *)
  unicode_lower : pystr -> nat -> pystr;
  (* [from faster_whisper import WhisperModel]: [None] when it succeeds *)
  faster_whisper_import : option exn;
  (* paths that exist when the process starts *)
  initial_files : list pystr;
  (* directory, prefix and random part of the name [mkstemp] picks *)
  mkstemp_stem : pystr;
  (* [subprocess.run(args, check=True)]: [None] for exit status 0 *)
  subprocess_result : list pystr -> option exn;
  (* [WhisperModel(...)] *)
  model_load : option exn;
  (* [model.transcribe(path, ...)] iterated to the end: the segment texts *)
  transcription : pystr -> exn + list pystr;
  (* successive readings of [time.time()] *)
  clock : nat -> Q;
  (* [os.remove(path)] on an existing file: [None] when it succeeds *)
  remove_result : pystr -> option exn
}.

(** What the process has done so far. *)
Record world := mkWorld {
  stdout : list json;
  stderr : list diag;
  files : list pystr;
  calls : list call;
  clock_reads : nat
}.

Definition init (E : env) : world :=
  mkWorld [] [] (initial_files E) [] 0.

(** ** The monad: state, exceptions and [sys.exit] *)

Inductive result (A : Type) :=
| Ok (a : A)
| Raise (e : exn)
| Exit (code : Z).

Arguments Ok {A} a.
Arguments Raise {A} e.
Arguments Exit {A} code.

Definition M (A : Type) := world -> result A * world.

Definition ret {A} (a : A) : M A := fun w => (Ok a, w).

Definition bind {A B} (m : M A) (k : A -> M B) : M B :=
  fun w =>
    match m w with
    | (Ok a, w') => k a w'
    | (Raise e, w') => (Raise e, w')
    | (Exit c, w') => (Exit c, w')
    end.

Definition raise {A} (e : exn) : M A := fun w => (Raise e, w).

Definition sys_exit {A} (code : Z) : M A := fun w => (Exit code, w).

(** [try: m  except Exception as e: h e].  [SystemExit] is not an
    [Exception] and passes through. *)
Definition try_except {A} (m : M A) (h : exn -> M A) : M A :=
  fun w =>
    match m w with
    | (Raise e, w') => h e w'
    | r => r
    end.

Declare Scope py_scope.
Delimit Scope py_scope with py.
Notation "x <- m ;; k" := (bind m (fun x => k))
  (at level 61, m at next level, right associativity) : py_scope.
Notation "m ;; k" := (bind m (fun _ => k))
  (at level 61, right associativity) : py_scope.
Notation "' pat <- m ;; k" := (bind m (fun x => match x with pat => k end))
  (at level 61, pat pattern, m at next level, right associativity) : py_scope.
Open Scope py_scope.

(** ** Primitive operations *)

Section Primitives.

Variable E : env.

Definition print (j : json) : M unit :=
  fun w => (Ok tt, mkWorld (stdout w ++ [j]) (stderr w) (files w) (calls w)
                           (clock_reads w)).

(** [print(..., file=sys.stderr)] *)
Definition eprint (s : pystr) : M unit :=
  fun w => (Ok tt, mkWorld (stdout w) (stderr w ++ [Line s]) (files w)
                           (calls w) (clock_reads w)).

Definition record (c : call) : M unit :=
  fun w => (Ok tt, mkWorld (stdout w) (stderr w) (files w) (calls w ++ [c])
                           (clock_reads w)).

Definition set_files (fs : list pystr) : M unit :=
  fun w => (Ok tt, mkWorld (stdout w) (stderr w) fs (calls w)
                           (clock_reads w)).

Definition file_exists (fs : list pystr) (p : pystr) : bool :=
  existsb (eqb p) fs.

(** [sys.argv[i]] *)
Definition argv_get (argv : list pystr) (i : nat) : M pystr :=
  match nth_error argv i with
  | Some a => ret a
  | None => raise (mkExn IndexError (py "list index out of range"))
  end.

(** [os.path.exists(p)] *)
Definition os_path_exists (p : pystr) : M bool :=
  fun w => (Ok (file_exists (files w) p), w).

(** [fd, path = tempfile.mkstemp(suffix=...); os.close(fd)], taken to
    succeed: the file is created, empty, under a name ending in the
    suffix. *)
Definition mkstemp (suffix : pystr) : M pystr :=
  let path := mkstemp_stem E ++ suffix in
  record (Mkstemp path) ;;
  (fun w => set_files (path :: files w) w) ;;
  ret path.

(** [subprocess.run(args, check=True, ...)] *)
Definition subprocess_run (args : list pystr) : M unit :=
  record (SubprocessRun args) ;;
  match subprocess_result E args with
  | None => ret tt
  | Some e => raise e
  end.

(** [time.time()] *)
Definition time_time : M Q :=
  fun w => (Ok (clock E (clock_reads w)),
            mkWorld (stdout w) (stderr w) (files w) (calls w ++ [TimeTime])
                    (S (clock_reads w))).

(** [WhisperModel("tiny", device="cpu", compute_type="int8")] *)
Definition WhisperModel : M unit :=
  record LoadModel ;;
  match model_load E with
  | None => ret tt
  | Some e => raise e
  end.

(** [model.transcribe(path, ...)] with its segments read to the end. *)
Definition transcribe (path : pystr) : M (list pystr) :=
  record (Transcribe path) ;;
  match transcription E path with
  | inr texts => ret texts
  | inl e => raise e
  end.

(** [os.remove(p)] *)
Definition os_remove (p : pystr) : M unit :=
  record (Remove p) ;;
  (fun w =>
     if file_exists (files w) p
     then match remove_result E p with
          | None =>
              set_files (filter (fun q => negb (eqb q p)) (files w)) w
          | Some e => raise e w
          end
     else raise (mkExn FileNotFoundError
                       (py "[Errno 2] No such file or directory")) w).

(** [from faster_whisper import WhisperModel] *)
Definition import_faster_whisper : M unit :=
  match faster_whisper_import E with
  | None => ret tt
  | Some e => raise e
  end.

End Primitives.

(** ** The script *)

(** [round(x, 2)]: the multiple of 1/100 nearest to [x], a tie going to the
    even one.  Clock readings and durations are exact rationals here; the
    binary rounding of the float subtraction is not modelled. *)
Definition round_half_even (x : Q) : Z :=
  let f := Qfloor x in
  match Qcompare (x - inject_Z f) (1 # 2) with
  | Lt => f
  | Gt => (f + 1)%Z
  | Eq => if Z.even f then f else (f + 1)%Z
  end.

Definition round2 (x : Q) : Q := Qmake (round_half_even (x * 100)) 100.

(** The snake that starts every diagnostic line. *)
Definition snake : pystr := [128013%N].

Definition CONVERTED_EXTENSIONS : list pystr :=
  [py ".webm"; py ".ogg"; py ".m4a"; py ".mp3"; py ".opus"].

Definition msg_generic : pystr :=
  py "Good response! Keep practicing to improve your interview skills.".
Definition msg_more_detail : pystr :=
  py "Try to provide more detailed answers with specific examples.".
Definition msg_concise : pystr :=
  py "Good detailed response! Try to be more concise while keeping key points.".
Definition msg_experience : pystr :=
  py "Great job mentioning specific experience! This adds credibility to your answer.".

Definition msg_error_feedback : pystr :=
  py "Error processing audio. Please try again.".

Section Script.

Variable E : env.

Definition str_lower : pystr -> pystr := lower (unicode_lower E).

(** Lines 59-68: the feedback heuristic. *)
Definition feedback_for (transcript : pystr) : pystr :=
  let feedback := msg_generic in
  let word_count := List.length (split transcript) in
  if (word_count <? 10)%nat then msg_more_detail
  else if (100 <? word_count)%nat then msg_concise
  else if negb (find (str_lower transcript) (py "experience") =? -1)%Z
          || negb (find (str_lower transcript) (py "project") =? -1)%Z
       then msg_experience
  else feedback.

(** Lines 21-36: format normalization.  Returns the path to transcribe
    and [temp_wav_path]. *)
Definition normalize (audio_path : pystr) : M (pystr * option pystr) :=
  let input_ext := str_lower (snd (splitext (os_name E) audio_path)) in
  if existsb (eqb input_ext) CONVERTED_EXTENSIONS then
    try_except
      (temp_wav_path <- mkstemp E (py ".wav") ;;
       subprocess_run E
         [py "ffmpeg"; py "-y"; py "-i"; audio_path; py "-ac"; py "1";
          py "-ar"; py "16000"; temp_wav_path] ;;
       ret (temp_wav_path, Some temp_wav_path))
      (fun e =>
         match exn_cls e with
         | FileNotFoundError =>
             raise (mkExn RuntimeError
               (py "FFmpeg not found. Please install FFmpeg and ensure it is in your PATH."))
         | CalledProcessError =>
             raise (mkExn RuntimeError
               (py "FFmpeg failed to convert audio: " ++ exn_str e))
         | _ => raise e
         end)
  else ret (audio_path, None).

(** Lines 79-84: cleanup of the temporary wav. *)
Definition cleanup (temp_wav_path : option pystr) : M unit :=
  match temp_wav_path with
  | Some p =>
      if eqb p [] then ret tt
      else
        exists_ <- os_path_exists p ;;
        if exists_
        then try_except (os_remove E p) (fun _ => ret tt)
        else ret tt
  | None => ret tt
  end.

Definition TranscriptionResult (transcript feedback : pystr)
    (transcription_time : Q) (word_count : nat) : json :=
  [ (py "transcript", JStr transcript);
    (py "feedback", JStr feedback);
    (py "processing_time", JFloat (round2 transcription_time));
    (py "word_count", JInt (Z.of_nat word_count)) ].

(** Lines 11-84: the body of the [try]. *)
Definition processing (argv : list pystr) : M unit :=
  audio_path <- argv_get argv 1 ;;
  question <- argv_get argv 2 ;;
  eprint (snake ++ py " Python script started") ;;
  eprint (snake ++ py " Audio path: " ++ audio_path) ;;
  eprint (snake ++ py " Question length: "
                ++ str_of_nat (List.length question)) ;;
  exists_ <- os_path_exists audio_path ;;
  eprint (snake ++ py " Audio file exists: " ++ str_of_bool exists_) ;;
  ' (audio_path, temp_wav_path) <- normalize audio_path ;;
  eprint (snake ++ py " Starting Whisper transcription") ;;
  start_time <- time_time E ;;
  WhisperModel E ;;
  eprint (snake ++ py " Whisper model loaded") ;;
  segments <- transcribe E audio_path ;;
  let transcript := strip (join (py " ") segments) in
  eprint (snake ++ py " Transcription completed: "
                ++ str_of_nat (List.length transcript) ++ py " characters") ;;
  now <- time_time E ;;
  let transcription_time := now - start_time in
  let word_count := List.length (split transcript) in
  print (TranscriptionResult transcript (feedback_for transcript)
                             transcription_time word_count) ;;
  cleanup temp_wav_path.

(** Lines 88-98: the message shown to the user. *)
Definition error_message (error_msg : pystr) : pystr :=
  if str_in (py "No module named") error_msg
  then py "Missing dependency: " ++ error_msg
  else if str_in (py "FFmpeg") error_msg
  then py "FFmpeg not found. Please install FFmpeg."
  else if str_in (py "No such file") error_msg
  then py "Audio file not found or corrupted."
  else if str_in (py "timeout") (str_lower error_msg)
  then py "Processing timeout. Try a shorter recording."
  else py "Audio processing error: " ++ error_msg.

Definition ErrorResult (error_msg : pystr) : json :=
  [ (py "transcript", JStr []);
    (py "feedback", JStr msg_error_feedback);
    (py "error", JStr error_msg);
    (py "processing_time", JInt 0);
    (py "word_count", JInt 0) ].

(** Lines 86-109: the [except Exception as e] clause. *)
Definition handler (e : exn) : M unit :=
  print (ErrorResult (error_message (exn_str e))) ;;
  sys_exit 1.

(** The module, top to bottom: the import of line 7, then the [try]
    statement. *)
Definition main (argv : list pystr) : M unit :=
  import_faster_whisper E ;;
  try_except (processing argv) handler.

(** The process: exit status and everything it did.  An exception that
    reaches the top is written as a traceback and the status is 1. *)
Definition script (argv : list pystr) : Z * world :=
  match main argv (init E) with
  | (Ok _, w) => (0%Z, w)
  | (Exit code, w) => (code, w)
  | (Raise e, w) =>
      (1%Z, mkWorld (stdout w) (stderr w ++ [Traceback e]) (files w)
                    (calls w) (clock_reads w))
  end.

End Script.


(** ** Notions the properties are stated with *)

(** [sub] occurs in [s]. *)
Definition contains (s sub : pystr) : Prop :=
  exists pre post, s = pre ++ sub ++ post.

(** Only whitespace. *)
Definition blank (s : pystr) : Prop := Forall (fun c => isspace c = true) s.

(** [t] is [s] without the whitespace around it: what was removed is
    whitespace, and [t] neither begins nor ends with whitespace. *)
Definition trimmed (s t : pystr) : Prop :=
  (exists l r, s = l ++ t ++ r /\ blank l /\ blank r)
  /\ (forall c r, t = c :: r -> isspace c = false)
  /\ (forall r c, t = r ++ [c] -> isspace c = false).

(** The number of whitespace-separated words of [s], counted where they
    begin: a character that is not whitespace, at the start of the text or
    right after whitespace. *)
Fixpoint word_starts (after_space : bool) (s : pystr) : nat :=
  match s with
  | [] => 0
  | c :: r =>
      ((if after_space && negb (isspace c) then 1 else 0)
       + word_starts (isspace c) r)%nat
  end.

Definition count_words (s : pystr) : nat := word_starts true s.

(** The transcript mentions "experience" or "project", whatever the case
    of its letters. *)
Definition mentions_keyword (E : env) (transcript : pystr) : Prop :=
  contains (str_lower E transcript) (py "experience")
  \/ contains (str_lower E transcript) (py "project").

(** Only code points of ASCII. *)
Definition is_ascii (s : pystr) : Prop := Forall (fun c => (c < 128)%N) s.

(** Some stretch of [s] spells [word] when the case of the letters is
    ignored. *)
Definition spells (s word : pystr) : Prop :=
  exists pre w post,
    s = pre ++ w ++ post /\ List.map ascii_lower w = word.

(** A word: not empty, no whitespace in it. *)
Definition is_word (w : pystr) : Prop :=
  w <> [] /\ Forall (fun c => isspace c = false) w.

(** The priority order of the four messages, as the specification words
    it: [n] is the word count. *)
Inductive feedback_rule (n : nat) (keyword : Prop) : pystr -> Prop :=
| rule_short : (n < 10)%nat -> feedback_rule n keyword msg_more_detail
| rule_long : (10 <= n)%nat -> (n > 100)%nat -> feedback_rule n keyword msg_concise
| rule_keyword :
    (10 <= n <= 100)%nat -> keyword -> feedback_rule n keyword msg_experience
| rule_generic :
    (10 <= n <= 100)%nat -> ~ keyword -> feedback_rule n keyword msg_generic.

(** The transcript line 53 builds from the segment texts. *)
Definition transcript_of (segments : list pystr) : pystr :=
  strip (join (py " ") segments).

(** A member of a printed object. *)
Fixpoint field (key : pystr) (j : json) : option jvalue :=
  match j with
  | [] => None
  | (k, v) :: rest => if eqb k key then Some v else field key rest
  end.

Definition exit_status (r : Z * world) : Z := fst r.
Definition final (r : Z * world) : world := snd r.

(** The path the temporary wav gets. *)
Definition temp_wav (E : env) : pystr := mkstemp_stem E ++ py ".wav".

(** The FFmpeg command line for [audio_path]. *)
Definition ffmpeg_command (E : env) (audio_path : pystr) : list pystr :=
  [py "ffmpeg"; py "-y"; py "-i"; audio_path; py "-ac"; py "1";
   py "-ar"; py "16000"; temp_wav E].

(** The extension decides whether the audio is converted. *)
Definition needs_conversion (E : env) (audio_path : pystr) : Prop :=
  In (str_lower E (snd (splitext (os_name E) audio_path)))
     CONVERTED_EXTENSIONS.

(** The order in which the handler recognises an exception message [m],
    as the specification words it; [low] is [m] in lower case. *)
Inductive error_rule (m low : pystr) : pystr -> Prop :=
| rule_dependency :
    contains m (py "No module named") ->
    error_rule m low (py "Missing dependency: " ++ m)
| rule_ffmpeg :
    ~ contains m (py "No module named") ->
    contains m (py "FFmpeg") ->
    error_rule m low (py "FFmpeg not found. Please install FFmpeg.")
| rule_no_file :
    ~ contains m (py "No module named") ->
    ~ contains m (py "FFmpeg") ->
    contains m (py "No such file") ->
    error_rule m low (py "Audio file not found or corrupted.")
| rule_timeout :
    ~ contains m (py "No module named") ->
    ~ contains m (py "FFmpeg") ->
    ~ contains m (py "No such file") ->
    contains low (py "timeout") ->
    error_rule m low (py "Processing timeout. Try a shorter recording.")
| rule_other :
    ~ contains m (py "No module named") ->
    ~ contains m (py "FFmpeg") ->
    ~ contains m (py "No such file") ->
    ~ contains low (py "timeout") ->
    error_rule m low (py "Audio processing error: " ++ m).

(** The segment texts in a row, one space before every text but the
    first. *)
Definition single_spaced (segments : list pystr) : pystr :=
  match segments with
  | [] => []
  | first :: others =>
      first ++ List.concat (List.map (fun text => py " " ++ text) others)
  end.

(** The diagnostic line that reports the question. *)
Definition question_line (question : pystr) : diag :=
  Line (snake ++ py " Question length: " ++ str_of_nat (List.length question)).

(** What the conversion step raises for an exception [e] of
    [subprocess.run]. *)
Definition conversion_error (e : exn) : exn :=
  match exn_cls e with
  | FileNotFoundError =>
      mkExn RuntimeError
        (py "FFmpeg not found. Please install FFmpeg and ensure it is in your PATH.")
  | CalledProcessError =>
      mkExn RuntimeError (py "FFmpeg failed to convert audio: " ++ exn_str e)
  | _ => e
  end.

(** The path handed to the model. *)
Definition transcribed_path (E : env) (audio_path : pystr) : pystr :=
  if existsb (eqb (str_lower E (snd (splitext (os_name E) audio_path))))
             CONVERTED_EXTENSIONS
  then temp_wav E else audio_path.

(** ** Sample invocations *)

(** A lower-case table that leaves the code points above ASCII alone. *)
Definition caseless (s : pystr) (i : nat) : pystr :=
  match nth_error s i with Some c => [c] | None => [] end.

Definition sample_argv (audio_path : string) : list pystr :=
  [py "process_answer.py"; py audio_path; py "Tell me about a project."].

(** A transcript of [n] words, the last of them "PROJECT". *)
Definition sample_transcript (n : nat) : pystr :=
  join (py " ") (repeat (py "and") (pred n) ++ [py "PROJECT"]).

(** A recording in webm that converts and transcribes. *)
Definition env_webm : env :=
  mkEnv Posix caseless None [py "uploads/answer.webm"] (py "/tmp/tmpk3x9q2")
    (fun _ => None) None
    (fun _ => inr [py " I led a PROJECT"; py " for two years. "])
    (fun n => match n with O => 1000 | _ => 10025 # 10 end)%Q
    (fun _ => None).

(** The same recording when the transcription fails after the conversion. *)
Definition env_transcription_fails : env :=
  mkEnv Posix caseless None [py "uploads/answer.webm"] (py "/tmp/tmpk3x9q2")
    (fun _ => None) None
    (fun _ =>
       inl (mkExn (OtherException (py "InvalidDataError"))
                  (py "[Errno 1094995529] Invalid data found when processing input")))
    (fun _ => 1000%Q)
    (fun _ => None).

(** The speech library is not installed. *)
Definition env_no_faster_whisper : env :=
  mkEnv Posix caseless
    (Some (mkExn ModuleNotFoundError (py "No module named 'faster_whisper'")))
    [py "uploads/answer.wav"] (py "/tmp/tmpk3x9q2")
    (fun _ => None) None
    (fun _ => inr [py " Hello."])
    (fun _ => 1000%Q)
    (fun _ => None).

(** The system clock is set back by one second during the transcription. *)
Definition env_clock_set_back : env :=
  mkEnv Posix caseless None [py "uploads/answer.wav"] (py "/tmp/tmpk3x9q2")
    (fun _ => None) None
    (fun _ => inr [py " Hello."])
    (fun n => match n with O => 1000 | _ => 999 end)%Q
    (fun _ => None).

(** The audio file does not exist. *)
Definition env_missing_audio : env :=
  mkEnv Posix caseless None [] (py "/tmp/tmpk3x9q2")
    (fun _ => None) None
    (fun _ =>
       inl (mkExn FileNotFoundError
                  (py "[Errno 2] No such file or directory: 'uploads/answer.wav'")))
    (fun _ => 1000%Q)
    (fun _ => None).

(** FFmpeg is not installed. *)
Definition env_no_ffmpeg : env :=
  mkEnv Posix caseless None [py "uploads/answer.webm"] (py "/tmp/tmpk3x9q2")
    (fun _ =>
       Some (mkExn FileNotFoundError
                   (py "[Errno 2] No such file or directory: 'ffmpeg'")))
    None
    (fun _ => inr [py " Hello."])
    (fun _ => 1000%Q)
    (fun _ => None).

(** FFmpeg rejects the recording. *)
Definition env_ffmpeg_fails : env :=
  mkEnv Posix caseless None [py "uploads/answer.webm"] (py "/tmp/tmpk3x9q2")
    (fun _ =>
       Some (mkExn CalledProcessError
                   (py "Command '['ffmpeg', '-y', '-i', 'uploads/answer.webm', '-ac', '1', '-ar', '16000', '/tmp/tmpk3x9q2.wav']' returned non-zero exit status 1.")))
    None
    (fun _ => inr [py " Hello."])
    (fun _ => 1000%Q)
    (fun _ => None).

(** ** The model prefetcher ([download_whisper_model.py]) *)

(** What the prefetcher has done: the arguments of its [print] calls, which
    all go to standard output, standard error, and its calls. *)
Record console := mkConsole {
  shown : list pystr;
  complaints : list diag;
  attempts : list call
}.

Definition step := console -> result unit * console.

Definition say (s : pystr) : step :=
  fun c => (Ok tt, mkConsole (shown c ++ [s]) (complaints c) (attempts c)).

(** One statement after another. *)
Definition and_then (m k : step) : step :=
  fun c =>
    match m c with
    | (Ok _, c') => k c'
    | r => r
    end.

(** Lines 8-10. *)
Definition announce : step :=
  and_then (say (128317%N :: py " Downloading Whisper 'tiny' model..."))
 (and_then (say (128230%N :: py " This is a one-time download (~75MB)"))
           (say (9203%N
                 :: py " Please wait, this should only take 1-2 minutes..."
                 ++ [10%N]))).

Definition downloaded_line : pystr :=
  10%N :: 9989%N :: py " Whisper 'tiny' model downloaded successfully!".

(** [WhisperModel("tiny", device="cpu", compute_type="int8")] *)
Definition load_model (E : env) : step :=
  fun c =>
    let c := mkConsole (shown c) (complaints c) (attempts c ++ [LoadModel]) in
    match model_load E with
    | Some e => (Raise e, c)
    | None => (Ok tt, c)
    end.

(** Lines 13-19: the body of the [try]. *)
Definition download (E : env) : step :=
  and_then (load_model E)
 (and_then (say downloaded_line)
 (and_then (say (127908%N :: py " You can now use voice recording in interviews without timeout issues."))
           (say (10%N :: 129514%N :: py " Model is ready and working!")))).

Definition troubleshooting_line : pystr :=
  10%N :: 128161%N :: py " Troubleshooting:".

(** Lines 21-27: the [except Exception as e] clause. *)
Definition download_failed (e : exn) : step :=
  and_then (say (10%N :: 10060%N :: py " Error downloading model: "
                      ++ exn_str e))
 (and_then (say troubleshooting_line)
 (and_then (say (py "   1. Check your internet connection"))
 (and_then (say (py "   2. Try running again (download will resume)"))
 (and_then (say (py "   3. If issues persist, you can use text answers instead"))
           (fun c => (Exit 1%Z, c)))))).

(** The module, top to bottom: the import of line 6, the announcement, the
    [try] statement. *)
Definition prefetch (E : env) : step :=
  and_then
    (fun c =>
       match faster_whisper_import E with
       | Some e => (Raise e, c)
       | None => (Ok tt, c)
       end)
 (and_then announce
    (fun c =>
       match download E c with
       | (Raise e, c') => download_failed e c'
       | r => r
       end)).

(** The prefetcher as a process. *)
Definition download_whisper_model (E : env) : Z * console :=
  match prefetch E (mkConsole [] [] []) with
  | (Ok _, c) => (0%Z, c)
  | (Exit code, c) => (code, c)
  | (Raise e, c) =>
      (1%Z, mkConsole (shown c) (complaints c ++ [Traceback e]) (attempts c))
  end.

(** ** Further notions *)

(** The environment [E] with another answer to [os.remove]. *)
Definition set_remove_result (E : env) (r : pystr -> option exn) : env :=
  mkEnv (os_name E) (unicode_lower E) (faster_whisper_import E)
        (initial_files E) (mkstemp_stem E) (subprocess_result E)
        (model_load E) (transcription E) (clock E) r.

(** How many of the calls [l] are of the kind [kind]. *)
Definition count_calls (kind : call -> bool) (l : list call) : nat :=
  List.length (filter kind l).

Definition is_mkstemp (c : call) : bool :=
  match c with Mkstemp _ => true | _ => false end.
Definition is_subprocess_run (c : call) : bool :=
  match c with SubprocessRun _ => true | _ => false end.
Definition is_time (c : call) : bool :=
  match c with TimeTime => true | _ => false end.
Definition is_load (c : call) : bool :=
  match c with LoadModel => true | _ => false end.
Definition is_transcribe (c : call) : bool :=
  match c with Transcribe _ => true | _ => false end.
Definition is_remove (c : call) : bool :=
  match c with Remove _ => true | _ => false end.

(** The calls made before the clock is first read. *)
Fixpoint before_first_clock (l : list call) : list call :=
  match l with
  | [] => []
  | c :: r => if is_time c then [] else c :: before_first_clock r
  end.

(** The calls made after the clock is last read. *)
Definition after_last_clock (l : list call) : list call :=
  rev (before_first_clock (rev l)).

(** The model finds no speech. *)
Definition env_silence : env :=
  mkEnv Posix caseless None [py "uploads/answer.wav"] (py "/tmp/tmpk3x9q2")
    (fun _ => None) None
    (fun _ => inr [py " "; []; py "  "])
    (fun _ => 1000%Q)
    (fun _ => None).

(** The temporary wav cannot be removed. *)
Definition env_remove_fails : env :=
  set_remove_result env_webm
    (fun _ => Some (mkExn (OtherException (py "PermissionError"))
                          (py "[Errno 13] Permission denied: '/tmp/tmpk3x9q2.wav'"))).

(** The model cannot be downloaded. *)
Definition env_download_fails : env :=
  mkEnv Posix caseless None [] (py "/tmp/tmpk3x9q2")
    (fun _ => None)
    (Some (mkExn (OtherException (py "ConnectionError"))
                 (py "Failed to reach huggingface.co")))
    (fun _ => inr [])
    (fun _ => 1000%Q)
    (fun _ => None).

(** * Properties *)

Local Open Scope nat_scope.

(** ** Substring search *)

Lemma startswith_iff (sub s : pystr) :
  startswith sub s = true <-> exists post, s = sub ++ post.
Proof.
  revert s; induction sub as [|a sub IH]; intros s; simpl.
  - split; [intros _; now exists s | reflexivity].
  - destruct s as [|b s].
    + split; [discriminate | intros [post H]; discriminate].
    + rewrite andb_true_iff, N.eqb_eq, IH. split.
      * intros [-> [post ->]]. now exists post.
      * intros [post H]. injection H as -> ->. split; [reflexivity | now exists post].
Qed.

Lemma contains_cons (c : N) (s sub : pystr) :
  contains (c :: s) sub <-> startswith sub (c :: s) = true \/ contains s sub.
Proof.
  split.
  - intros [pre [post H]]. destruct pre as [|p pre].
    + left. apply startswith_iff. now exists post.
    + right. injection H as _ H. now exists pre, post.
  - intros [H | [pre [post H]]].
    + apply startswith_iff in H as [post H]. now exists [], post.
    + exists (c :: pre), post. now rewrite H.
Qed.

Lemma contains_nil (sub : pystr) : contains [] sub <-> sub = [].
Proof.
  split.
  - intros [pre [post H]]. symmetry in H.
    apply app_eq_nil in H as [_ H]. now apply app_eq_nil in H as [H _].
  - intros ->. now exists [], [].
Qed.

Lemma find_from_absent (s sub : pystr) (i : Z) :
  (0 <= i)%Z -> (find_from s sub i = -1)%Z <-> ~ contains s sub.
Proof.
  revert i; induction s as [|c s IH]; intros i Hi; simpl.
  - rewrite contains_nil. destruct sub; split; try lia; try congruence.
  - rewrite contains_cons. destruct (startswith sub (c :: s)) eqn:Hs.
    + split; [lia | intros H; contradict H; now left].
    + rewrite (IH (i + 1)%Z) by lia. split.
      * intros H [H' | H']; [discriminate | auto].
      * intros H H'. apply H. now right.
Qed.

Lemma find_from_found (s sub : pystr) (i : Z) :
  (find_from s sub i <> -1)%Z -> contains s sub.
Proof.
  revert i; induction s as [|c s IH]; intros i; simpl.
  - destruct sub; [intros _; now apply contains_nil | congruence].
  - rewrite contains_cons. destruct (startswith sub (c :: s)); [now left|].
    intros H. right. now apply (IH (i + 1)%Z).
Qed.

(** [s.find(sub) != -1] says that [sub] occurs in [s]. *)
Lemma find_present (s sub : pystr) :
  negb (find s sub =? -1)%Z = true <-> contains s sub.
Proof.
  unfold find. rewrite negb_true_iff, Z.eqb_neq. split.
  - apply find_from_found.
  - intros H Hf. apply find_from_absent in Hf; [auto | lia].
Qed.

Lemma str_in_iff (sub s : pystr) : str_in sub s = true <-> contains s sub.
Proof. apply find_present. Qed.

Lemma str_in_false (sub s : pystr) : str_in sub s = false <-> ~ contains s sub.
Proof.
  rewrite <- str_in_iff. destruct (str_in sub s); split; congruence.
Qed.

Lemma eqb_eq (a b : pystr) : eqb a b = true <-> a = b.
Proof.
  unfold eqb. destruct (list_eq_dec N.eq_dec a b); split; congruence.
Qed.

Lemma existsb_eqb (x : pystr) (l : list pystr) :
  existsb (eqb x) l = true <-> In x l.
Proof.
  rewrite existsb_exists. split.
  - intros [y [Hy H]]. apply eqb_eq in H. now subst.
  - intros H. exists x. split; [assumption | now apply eqb_eq].
Qed.

(** ** Words and trimming *)

Lemma length_split_ws (cur s : pystr) :
  List.length (split_ws cur s) =
  match cur with
  | [] => word_starts true s
  | _ => S (word_starts false s)
  end.
Proof.
  revert cur; induction s as [|c s IH]; intros cur; simpl.
  - now destruct cur.
  - destruct (isspace c) eqn:Hc; simpl.
    + destruct cur; simpl; now rewrite IH.
    + rewrite IH. now destruct cur.
Qed.

Lemma length_split (s : pystr) : List.length (split s) = count_words s.
Proof. apply (length_split_ws [] s). Qed.

Lemma split_ws_words (cur s : pystr) :
  Forall (fun c => isspace c = false) cur ->
  Forall is_word (split_ws cur s).
Proof.
  revert cur; induction s as [|c s IH]; intros cur Hcur; simpl.
  - destruct cur as [|d cur]; constructor; [|constructor].
    split; [|now apply Forall_rev].
    intros H. apply (f_equal (@rev N)) in H. rewrite rev_involutive in H.
    discriminate.
  - destruct (isspace c) eqn:Hc.
    + destruct cur as [|d cur]; [now apply IH|].
      constructor; [|now apply IH].
      split; [|now apply Forall_rev].
      intros H. apply (f_equal (@rev N)) in H. rewrite rev_involutive in H.
      discriminate.
    + apply IH. now constructor.
Qed.

(** What [s.split()] returns are words. *)
Lemma split_words (s : pystr) : Forall is_word (split s).
Proof. apply split_ws_words. constructor. Qed.

Lemma lstrip_prefix (s : pystr) :
  exists l, s = l ++ lstrip s /\ blank l.
Proof.
  induction s as [|c s [l [Hl Hb]]]; simpl.
  - exists []. split; [reflexivity | constructor].
  - destruct (isspace c) eqn:Hc.
    + exists (c :: l). split; [simpl; congruence | now constructor].
    + exists []. split; [reflexivity | constructor].
Qed.

Lemma lstrip_head (s : pystr) (c : N) (r : pystr) :
  lstrip s = c :: r -> isspace c = false.
Proof.
  induction s as [|d s IH]; simpl; [discriminate|].
  destruct (isspace d) eqn:Hd; [assumption|].
  intros H. injection H as -> _. assumption.
Qed.

Lemma lstrip_keeps_last (s : pystr) (c : N) :
  isspace c = false -> exists u, lstrip (s ++ [c]) = u ++ [c].
Proof.
  intros Hc. induction s as [|d s [u Hu]]; simpl.
  - rewrite Hc. now exists [].
  - destruct (isspace d); [now exists u | now exists (d :: s)].
Qed.

Lemma blank_rev (s : pystr) : blank s -> blank (rev s).
Proof. unfold blank. rewrite !Forall_forall. intros H x Hx. apply H. now apply in_rev. Qed.

Lemma rstrip_suffix (s : pystr) :
  exists r, s = rstrip s ++ r /\ blank r.
Proof.
  unfold rstrip. destruct (lstrip_prefix (rev s)) as [l [Hl Hb]].
  exists (rev l). split; [|now apply blank_rev].
  rewrite <- rev_app_distr, <- Hl. now rewrite rev_involutive.
Qed.

Lemma rstrip_last (s r : pystr) (c : N) :
  rstrip s = r ++ [c] -> isspace c = false.
Proof.
  unfold rstrip. intros H. apply (f_equal (@rev N)) in H.
  rewrite rev_involutive, rev_app_distr in H. simpl in H.
  now apply lstrip_head in H.
Qed.

Lemma rstrip_head (s : pystr) (c : N) :
  isspace c = false -> exists u, rstrip (c :: s) = c :: u.
Proof.
  intros Hc. unfold rstrip. simpl.
  destruct (@lstrip_keeps_last (rev s) c Hc) as [u Hu].
  rewrite Hu, rev_app_distr. simpl. now exists (rev u).
Qed.

(** [s.strip()] is [s] without the whitespace around it. *)
Lemma strip_trimmed (s : pystr) : trimmed s (strip s).
Proof.
  unfold strip. destruct (lstrip_prefix s) as [l [Hl Hbl]].
  destruct (rstrip_suffix (lstrip s)) as [r [Hr Hbr]].
  split; [|split].
  - exists l, r. split; [|split; assumption]. now rewrite <- Hr.
  - intros c t Ht. destruct (lstrip s) as [|d u] eqn:Hs.
    + unfold rstrip in Ht. discriminate.
    + pose proof (@lstrip_head s d u Hs) as Hd.
      destruct (@rstrip_head u d Hd) as [v Hv].
      rewrite Hv in Ht. now injection Ht as <- _.
  - intros t c. apply rstrip_last.
Qed.

(** ** The feedback heuristic *)

Section Feedback.

Variable E : env.

Lemma keyword_test (transcript : pystr) :
  negb (find (str_lower E transcript) (py "experience") =? -1)%Z
  || negb (find (str_lower E transcript) (py "project") =? -1)%Z = true
  <-> mentions_keyword E transcript.
Proof.
  unfold mentions_keyword. now rewrite orb_true_iff, !find_present.
Qed.

Lemma lower_from_ascii (whole : pystr) (i : nat) (s : pystr) :
  is_ascii s ->
  lower_from (unicode_lower E) whole i s = List.map ascii_lower s.
Proof.
  revert i; induction s as [|c s IH]; intros i Hs; simpl; [reflexivity|].
  inversion Hs as [|c' s' Hc Hs']; subst.
  apply N.ltb_lt in Hc. rewrite Hc. simpl. now rewrite IH.
Qed.

(** On ASCII text [str.lower] only shifts the capital letters. *)
Lemma lower_ascii (s : pystr) :
  is_ascii s -> str_lower E s = List.map ascii_lower s.
Proof. apply lower_from_ascii. Qed.

Lemma contains_map_lower (s word : pystr) :
  contains (List.map ascii_lower s) word <-> spells s word.
Proof.
  split.
  - intros (pre & post & H).
    apply map_eq_app in H as (pre' & rest & -> & _ & H).
    apply map_eq_app in H as (w & post' & -> & Hw & _).
    now exists pre', w, post'.
  - intros (pre & w & post & -> & <-).
    exists (List.map ascii_lower pre), (List.map ascii_lower post).
    now rewrite !map_app.
Qed.

(** In an ASCII transcript the keyword test finds "experience" and
    "project" in any mix of upper and lower case, and nothing else. *)
Lemma mentions_keyword_ascii (transcript : pystr) :
  is_ascii transcript ->
  mentions_keyword E transcript
  <-> spells transcript (py "experience") \/ spells transcript (py "project").
Proof.
  intros Ha. unfold mentions_keyword. rewrite (lower_ascii Ha).
  now rewrite !contains_map_lower.
Qed.

(** C1.  For every transcript the feedback is the message that the
    priority order selects from the word count and the presence of
    "experience" or "project" in the lower-cased transcript: fewer than
    10 words, the "more detail" message; else more than 100, the "be more
    concise" message; else a keyword, the "specific experience" message;
    else the generic encouragement.  The order selects exactly one
    message. *)
Theorem feedback_priority_order (transcript : pystr) :
  feedback_rule (count_words transcript) (mentions_keyword E transcript)
                (feedback_for E transcript)
  /\ forall m,
       feedback_rule (count_words transcript)
                     (mentions_keyword E transcript) m ->
       m = feedback_for E transcript.
Proof.
  unfold feedback_for. rewrite length_split.
  set (n := count_words transcript).
  pose proof (keyword_test transcript) as Hk.
  destruct (Nat.ltb_spec n 10) as [Hs | Hs].
  { split; [now constructor|].
    intros m Hm. destruct Hm; try reflexivity; lia. }
  destruct (Nat.ltb_spec 100 n) as [Hl | Hl].
  { split; [now constructor|].
    intros m Hm. destruct Hm; try reflexivity; lia. }
  destruct (negb (find (str_lower E transcript) (py "experience") =? -1)%Z
            || negb (find (str_lower E transcript) (py "project") =? -1)%Z)
    eqn:Hb.
  - assert (Hm : mentions_keyword E transcript) by now apply Hk.
    split; [constructor; auto; lia|].
    intros m H. destruct H; try reflexivity; try lia. contradiction.
  - assert (Hm : ~ mentions_keyword E transcript).
    { intros H. apply Hk in H. discriminate. }
    split; [constructor; auto; lia|].
    intros m H. destruct H; try reflexivity; try lia. contradiction.
Qed.

End Feedback.

(** The thresholds, on transcripts of 9, 10, 100 and 101 words that all
    mention a project. *)
Example feedback_at_the_thresholds :
  feedback_for env_webm (sample_transcript 9) = msg_more_detail
  /\ feedback_for env_webm (sample_transcript 10) = msg_experience
  /\ feedback_for env_webm (sample_transcript 100) = msg_experience
  /\ feedback_for env_webm (sample_transcript 101) = msg_concise
  /\ feedback_for env_webm (join (py " ") (repeat (py "and") 10)) = msg_generic.
Proof. vm_compute. repeat split. Qed.

(** ** Rounding *)

Lemma round_half_even_bounds (x : Q) :
  (inject_Z (round_half_even x) - (1 # 2) <= x
   /\ x <= inject_Z (round_half_even x) + (1 # 2))%Q.
Proof.
  unfold round_half_even.
  pose proof (Qfloor_le x) as Hlo. pose proof (Qlt_floor x) as Hhi.
  rewrite inject_Z_plus in Hhi. change (inject_Z 1) with 1%Q in Hhi.
  destruct (Qcompare_spec (x - inject_Z (Qfloor x)) (1 # 2)) as [H | H | H].
  - destruct (Z.even (Qfloor x));
      [|rewrite inject_Z_plus; change (inject_Z 1) with 1%Q]; lra.
  - lra.
  - rewrite inject_Z_plus. change (inject_Z 1) with 1%Q. lra.
Qed.

Lemma round_half_even_nonneg (x : Q) :
  (0 <= x)%Q -> (0 <= round_half_even x)%Z.
Proof.
  intros Hx. assert (Hf : (0 <= Qfloor x)%Z).
  { change 0%Z with (Qfloor 0). now apply Qfloor_resp_le. }
  unfold round_half_even.
  destruct (x - inject_Z (Qfloor x) ?= 1 # 2)%Q; [destruct (Z.even _)| |]; lia.
Qed.

(** [round2 x] is a hundredth nearest to [x]. *)
Lemma round2_near (x : Q) : (Qabs (round2 x - x) <= 1 # 200)%Q.
Proof.
  destruct (round_half_even_bounds (x * 100)) as [Hlo Hhi].
  assert (Hr : (round2 x == inject_Z (round_half_even (x * 100)) * (1 # 100))%Q).
  { unfold round2, Qeq. simpl. lia. }
  apply Qabs_Qle_condition. rewrite Hr.
  set (k := inject_Z (round_half_even (x * 100))) in *.
  split; lra.
Qed.

Lemma round2_nonneg (x : Q) : (0 <= x)%Q -> (0 <= round2 x)%Q.
Proof.
  intros Hx. unfold round2, Qle. simpl.
  assert (0 <= round_half_even (x * 100))%Z
    by (apply round_half_even_nonneg; lra).
  lia.
Qed.

(** ** Running the script *)

Arguments py : simpl never.

Ltac unfold_script :=
  unfold script, main, processing, normalize, cleanup, handler,
    import_faster_whisper, mkstemp, subprocess_run, WhisperModel, transcribe,
    os_remove, os_path_exists, time_time, argv_get, print, eprint, record,
    set_files, try_except, bind, ret, raise, sys_exit.

(** Case analysis on the innermost scrutinee: one answer of the environment
    at a time. *)
Ltac split_match :=
  match goal with
  | |- context [match ?x with _ => _ end] =>
      lazymatch x with
      | context [match _ with _ => _ end] => fail
      | _ => destruct x eqn:?
      end
  end.

Ltac run_script :=
  unfold_script;
  repeat (split_match; cbn [stdout stderr files calls clock_reads fst snd]).

Section Runs.

Variable E : env.

(** What the body of the [try] can do: it never calls [sys.exit]; when it
    raises, nothing has been printed; when it completes, it has printed the
    transcription result, once, and nothing else. *)
Lemma processing_outcome (argv : list pystr) (w : world) :
  match processing E argv w with
  | (Exit _, _) => False
  | (Raise _, w') => stdout w' = stdout w
  | (Ok _, w') =>
      exists audio_path question segments,
        nth_error argv 1 = Some audio_path
        /\ nth_error argv 2 = Some question
        /\ transcription E (transcribed_path E audio_path) = inr segments
        /\ stdout w' = stdout w ++
             [TranscriptionResult (transcript_of segments)
                (feedback_for E (transcript_of segments))
                (clock E (S (clock_reads w)) - clock E (clock_reads w))
                (List.length (split (transcript_of segments)))]
  end.
Proof.
  unfold transcribed_path, temp_wav. run_script.
  all: try reflexivity.
  all: do 3 eexists; repeat split; try eassumption; try reflexivity.
  all: match goal with H : existsb _ _ = _ |- _ => rewrite H end; assumption.
Qed.

End Runs.

Section Outcomes.

Variable E : env.

(** Once the import has succeeded the process ends as the [try] statement
    does. *)
Lemma script_after_import (argv : list pystr) :
  faster_whisper_import E = None ->
  script E argv =
  match processing E argv (init E) with
  | (Ok _, w) => (0%Z, w)
  | (Raise e, w) =>
      (1%Z, snd (print (ErrorResult (error_message E (exn_str e))) w))
  | (Exit code, w) => (code, w)
  end.
Proof.
  intros H. unfold script, main, import_faster_whisper, try_except, handler,
    bind, ret, sys_exit, print. rewrite H.
  destruct (processing E argv (init E)) as [[u | e | c] w]; reflexivity.
Qed.

Lemma script_on_raise (argv : list pystr) (e : exn) (w : world) :
  faster_whisper_import E = None ->
  processing E argv (init E) = (Raise e, w) ->
  exit_status (script E argv) = 1%Z
  /\ stdout (final (script E argv))
     = [ErrorResult (error_message E (exn_str e))].
Proof.
  intros Himport Hraise. rewrite (script_after_import argv Himport).
  pose proof (processing_outcome E argv (init E)) as Hout.
  rewrite Hraise in *. split; [reflexivity|].
  unfold final; simpl. now rewrite Hout.
Qed.

Lemma script_on_ok (argv : list pystr) (u : unit) (w : world) :
  faster_whisper_import E = None ->
  processing E argv (init E) = (Ok u, w) ->
  script E argv = (0%Z, w).
Proof.
  intros Himport Hok. rewrite (script_after_import argv Himport).
  now rewrite Hok.
Qed.

Lemma processing_never_exits (argv : list pystr) (code : Z) (w w' : world) :
  processing E argv w <> (Exit code, w').
Proof.
  pose proof (processing_outcome E argv w) as Hout. intros H.
  now rewrite H in Hout.
Qed.

(** C3.  When processing raises an exception, whatever the input, the
    process exits with status 1 and standard output holds exactly the error
    object: empty transcript, the fixed feedback, the error message,
    processing time 0 and word count 0.  When processing completes, the
    process exits with status 0 and standard output holds exactly the
    transcription object.  Processing does one or the other. *)
Theorem exit_status_and_result (argv : list pystr) :
  faster_whisper_import E = None ->
  (forall e w,
      processing E argv (init E) = (Raise e, w) ->
      exit_status (script E argv) = 1%Z
      /\ stdout (final (script E argv)) =
         [ [ (py "transcript", JStr []);
             (py "feedback", JStr (py "Error processing audio. Please try again."));
             (py "error", JStr (error_message E (exn_str e)));
             (py "processing_time", JInt 0);
             (py "word_count", JInt 0) ] ])
  /\ (forall u w,
      processing E argv (init E) = (Ok u, w) ->
      exit_status (script E argv) = 0%Z
      /\ exists transcript feedback seconds words,
           stdout (final (script E argv)) =
           [ [ (py "transcript", JStr transcript);
               (py "feedback", JStr feedback);
               (py "processing_time", JFloat seconds);
               (py "word_count", JInt words) ] ])
  /\ (forall code w, processing E argv (init E) <> (Exit code, w)).
Proof.
  intros Himport. split; [|split].
  - intros e w H. exact (script_on_raise argv Himport H).
  - intros u w H. rewrite (script_on_ok argv Himport H).
    split; [reflexivity|].
    pose proof (processing_outcome E argv (init E)) as Hout.
    rewrite H in Hout. destruct Hout as (a & q & segs & _ & _ & _ & Hs).
    unfold final; simpl. rewrite Hs. unfold TranscriptionResult.
    now do 4 eexists.
  - intros code w. apply processing_never_exits.
Qed.

End Outcomes.

Section ErrorMessages.

Variable E : env.

Lemma error_message_rule (m : pystr) :
  error_rule m (str_lower E m) (error_message E m).
Proof.
  unfold error_message.
  destruct (str_in (py "No module named") m) eqn:H1.
  { apply rule_dependency. now apply str_in_iff. }
  apply str_in_false in H1.
  destruct (str_in (py "FFmpeg") m) eqn:H2.
  { apply rule_ffmpeg; [assumption | now apply str_in_iff]. }
  apply str_in_false in H2.
  destruct (str_in (py "No such file") m) eqn:H3.
  { apply rule_no_file; [assumption .. | now apply str_in_iff]. }
  apply str_in_false in H3.
  destruct (str_in (py "timeout") (str_lower E m)) eqn:H4.
  { apply rule_timeout; [assumption .. | now apply str_in_iff]. }
  apply str_in_false in H4.
  now apply rule_other.
Qed.

Lemma error_rule_functional (m low a b : pystr) :
  error_rule m low a -> error_rule m low b -> a = b.
Proof.
  intros Ha Hb. destruct Ha; destruct Hb; try reflexivity; contradiction.
Qed.

(** C7.  On every failure the message shown to the user is the one the
    ordered rules select from the message of the exception: "No module
    named" gives the missing dependency message; else "FFmpeg" the
    FFmpeg-not-found message; else "No such file" the missing or corrupted
    audio message; else "timeout" in the lower-cased message the timeout
    message; else the message labelled as an audio processing error.  The
    rules select that message and no other. *)
Theorem user_facing_error_message (argv : list pystr) (e : exn) (w : world) :
  faster_whisper_import E = None ->
  processing E argv (init E) = (Raise e, w) ->
  exists shown j,
    stdout (final (script E argv)) = [j]
    /\ field (py "error") j = Some (JStr shown)
    /\ error_rule (exn_str e) (str_lower E (exn_str e)) shown
    /\ forall other,
         error_rule (exn_str e) (str_lower E (exn_str e)) other ->
         other = shown.
Proof.
  intros Himport Hraise.
  destruct (script_on_raise E argv Himport Hraise) as [_ Hout].
  exists (error_message E (exn_str e)). eexists.
  split; [exact Hout|]. split; [reflexivity|].
  split; [apply error_message_rule|].
  intros other H. apply (error_rule_functional H), error_message_rule.
Qed.

Lemma error_message_index_error :
  error_message E (py "list index out of range")
  = py "Audio processing error: list index out of range".
Proof. vm_compute. reflexivity. Qed.

(** C10.  With fewer than two positional arguments the read of [sys.argv]
    raises the index error inside the [try]; the handler prints the error
    object with the message labelled "Audio processing error", processing
    time 0 and word count 0, and the process exits with status 1. *)
Theorem too_few_arguments (argv : list pystr) :
  faster_whisper_import E = None ->
  List.length argv < 3 ->
  processing E argv (init E)
  = (Raise (mkExn IndexError (py "list index out of range")), init E)
  /\ exit_status (script E argv) = 1%Z
  /\ stdout (final (script E argv)) =
     [ [ (py "transcript", JStr []);
         (py "feedback", JStr (py "Error processing audio. Please try again."));
         (py "error",
          JStr (py "Audio processing error: list index out of range"));
         (py "processing_time", JInt 0);
         (py "word_count", JInt 0) ] ].
Proof.
  intros Himport Hlen.
  assert (Hraise : processing E argv (init E)
            = (Raise (mkExn IndexError (py "list index out of range")), init E)).
  { destruct argv as [|a0 [|a1 [|a2 rest]]]; simpl in Hlen; try lia;
      reflexivity. }
  split; [exact Hraise|].
  destruct (script_on_raise E argv Himport Hraise) as [Hstatus Hout].
  split; [exact Hstatus|].
  rewrite Hout. simpl exn_str. now rewrite error_message_index_error.
Qed.

End ErrorMessages.

Section Question.

Variable E : env.

(** C9.  Two invocations that differ only in the question end with the same
    exit status and the same standard output, success or error object
    alike; they also leave the same files and made the same calls.  On
    standard error only the line reporting the length of the question can
    differ. *)
Theorem question_only_reaches_stderr
    (prog audio_path question question' : pystr) (rest : list pystr) :
  let r := script E (prog :: audio_path :: question :: rest) in
  let r' := script E (prog :: audio_path :: question' :: rest) in
  exit_status r = exit_status r'
  /\ stdout (final r) = stdout (final r')
  /\ files (final r) = files (final r')
  /\ calls (final r) = calls (final r')
  /\ (stderr (final r) = stderr (final r')
      \/ exists before after,
           stderr (final r) = before ++ question_line question :: after
           /\ stderr (final r') = before ++ question_line question' :: after).
Proof.
  unfold exit_status, final, question_line. cbv zeta.
  unfold_script. cbn [nth_error].
  repeat (split_match; cbn [stdout stderr files calls clock_reads fst snd]).
  all: repeat split; try reflexivity.
  all: try (left; reflexivity).
  all: right; exists [Line (snake ++ py " Python script started");
                      Line (snake ++ py " Audio path: " ++ audio_path)];
       eexists; split; reflexivity.
Qed.

End Question.

(** ** One result per invocation *)

Section Results.

Variable E : env.


(** No run prints the transcription object and then the error object. *)
Lemma results_exclusive (argv : list pystr) (a b : pystr) (t : Q) (n : nat)
    (m : pystr) :
  ~ (In (TranscriptionResult a b t n) (stdout (final (script E argv)))
     /\ In (ErrorResult m) (stdout (final (script E argv)))).
Proof.
  intros [Hs He]. unfold final, script, main, import_faster_whisper,
    try_except, handler, bind, ret, raise, sys_exit, print in *.
  pose proof (processing_outcome E argv (init E)) as Hout.
  destruct (faster_whisper_import E); simpl in *; [contradiction|].
  destruct (processing E argv (init E)) as [[u | e | c] w]; simpl in *.
  - destruct Hout as (x & q & segs & _ & _ & _ & Hw). rewrite Hw in He.
    simpl in He. destruct He as [He | []]. discriminate.
  - rewrite Hout in Hs. simpl in Hs. destruct Hs as [Hs | []]. discriminate.
  - contradiction.
Qed.

End Results.

(** C4.  Without the speech library the import on line 7, which is outside
    the [try], fails: the process ends with status 1 and a traceback on
    standard error, and standard output holds no result object at all. *)
Theorem no_result_without_faster_whisper :
  let r := script env_no_faster_whisper (sample_argv "uploads/answer.wav") in
  exit_status r = 1%Z
  /\ stdout (final r) = []
  /\ stderr (final r) =
     [Traceback (mkExn ModuleNotFoundError
                       (py "No module named 'faster_whisper'"))].
Proof. vm_compute. repeat split. Qed.

(** ** The temporary wav *)

Lemma eqb_refl (a : pystr) : eqb a a = true.
Proof. now apply eqb_eq. Qed.

Lemma file_exists_new (p : pystr) (fs : list pystr) :
  file_exists (p :: fs) p = true.
Proof. unfold file_exists. simpl. now rewrite eqb_refl. Qed.

Lemma file_exists_removed (p : pystr) (fs : list pystr) :
  file_exists (filter (fun q => negb (eqb q p)) fs) p = false.
Proof.
  unfold file_exists. induction fs as [|q fs IH]; simpl; [reflexivity|].
  destruct (eqb q p) eqn:Hq; simpl; [assumption|].
  rewrite IH, orb_false_r. destruct (eqb p q) eqn:Hp; [|reflexivity].
  apply eqb_eq in Hp. subst. now rewrite eqb_refl in Hq.
Qed.

Lemma temp_wav_named (E : env) : eqb (mkstemp_stem E ++ py ".wav") [] = false.
Proof.
  destruct (eqb _ _) eqn:H; [|reflexivity].
  apply eqb_eq, app_eq_nil in H as [_ H]. discriminate.
Qed.

Section TempWav.

Variable E : env.

Lemma raise_keeps_temp_wav (argv : list pystr) (e : exn) (w : world) :
  processing E argv (init E) = (Raise e, w) ->
  In (Mkstemp (temp_wav E)) (calls w) ->
  file_exists (files w) (temp_wav E) = true.
Proof.
  unfold temp_wav. run_script.
  all: intros Hp Hc; try discriminate.
  all: injection Hp as <- <-; cbn in Hc; cbn [files].
  all: try apply file_exists_new.
  all: repeat (destruct Hc as [Hc | Hc]; try discriminate); try contradiction.
Qed.

(** Every failure that follows the creation of the temporary wav leaves it
    on disk: the handler removes nothing. *)
Lemma failure_keeps_temp_wav (argv : list pystr) (e : exn) (w : world) :
  faster_whisper_import E = None ->
  processing E argv (init E) = (Raise e, w) ->
  In (Mkstemp (temp_wav E)) (calls w) ->
  file_exists (files (final (script E argv))) (temp_wav E) = true.
Proof.
  intros Himport Hraise Hc. rewrite (script_after_import E argv Himport).
  rewrite Hraise. unfold final; simpl.
  exact (raise_keeps_temp_wav argv Hraise Hc).
Qed.

(** On the success path the temporary wav is gone unless its removal
    fails. *)
Lemma success_removes_temp_wav (argv : list pystr) (w : world) :
  script E argv = (0%Z, w) ->
  In (Mkstemp (temp_wav E)) (calls w) ->
  remove_result E (temp_wav E) = None ->
  file_exists (files w) (temp_wav E) = false.
Proof.
  unfold temp_wav. pose proof (temp_wav_named E) as Hn. run_script.
  all: intros Hp Hc Hr; try discriminate.
  all: injection Hp as <-; cbn in Hc; cbn [files].
  all: rewrite ?eqb_refl; cbn [negb]; try apply file_exists_removed.
  all: try congruence.
  all: try (rewrite file_exists_new in *; discriminate).
  all: repeat (destruct Hc as [Hc | Hc]; try discriminate); try contradiction.
Qed.

End TempWav.

(** C2.  A webm recording is converted, then the transcription raises: the
    process exits with status 1 and the temporary wav, which did not exist
    before, is still on disk. *)
Theorem temp_wav_left_after_failure :
  let E := env_transcription_fails in
  let r := script E (sample_argv "uploads/answer.webm") in
  exit_status r = 1%Z
  /\ In (SubprocessRun (ffmpeg_command E (py "uploads/answer.webm")))
        (calls (final r))
  /\ file_exists (initial_files E) (temp_wav E) = false
  /\ file_exists (files (final r)) (temp_wav E) = true.
Proof. vm_compute. repeat split. right; left; reflexivity. Qed.

(** ** The transcription result *)

Lemma join_cons (sep first : pystr) (others : list pystr) :
  join sep (first :: others)
  = first ++ List.concat (List.map (fun text => sep ++ text) others).
Proof.
  revert first; induction others as [|second others IH]; intros first.
  - simpl. now rewrite app_nil_r.
  - change (join sep (first :: second :: others))
      with (first ++ sep ++ join sep (second :: others)).
    rewrite IH. simpl. now rewrite <- app_assoc.
Qed.

Lemma join_single_spaced (segments : list pystr) :
  join (py " ") segments = single_spaced segments.
Proof. destruct segments; [reflexivity | apply join_cons]. Qed.

Section Success.

Variable E : env.

(** Exit status 0 is the success path: the import succeeded and the body of
    the [try] ran to its end. *)
Lemma script_exit_zero (argv : list pystr) (w : world) :
  script E argv = (0%Z, w) ->
  faster_whisper_import E = None
  /\ processing E argv (init E) = (Ok tt, w).
Proof.
  unfold script, main, import_faster_whisper, try_except, handler, bind, ret,
    raise, sys_exit, print.
  destruct (faster_whisper_import E); [discriminate|].
  destruct (processing E argv (init E)) as [[[] | e | c] w'] eqn:Hp.
  - intros H. injection H as <-. now split.
  - discriminate.
  - now destruct (@processing_never_exits E argv c (init E) w' Hp).
Qed.

(** C6.  On a successful run, with [segments] the texts the model produced
    for the audio, the transcript in the output is those texts in a row
    with one space between consecutive texts, without the whitespace
    around the whole, and the word count in the output is the number of
    whitespace-separated words of that transcript. *)
Theorem transcript_and_word_count (argv : list pystr) (w : world) :
  script E argv = (0%Z, w) ->
  exists audio_path segments transcript j,
    nth_error argv 1 = Some audio_path
    /\ transcription E (transcribed_path E audio_path) = inr segments
    /\ stdout w = [j]
    /\ field (py "transcript") j = Some (JStr transcript)
    /\ trimmed (single_spaced segments) transcript
    /\ field (py "word_count") j
       = Some (JInt (Z.of_nat (count_words transcript))).
Proof.
  intros Hrun. apply script_exit_zero in Hrun as [_ Hok].
  pose proof (processing_outcome E argv (init E)) as Hout.
  rewrite Hok in Hout.
  destruct Hout as (audio_path & question & segments & Ha & _ & Ht & Hs).
  exists audio_path, segments, (transcript_of segments). eexists.
  split; [exact Ha|]. split; [exact Ht|]. split; [exact Hs|].
  split; [reflexivity|]. split.
  - unfold transcript_of. rewrite join_single_spaced. apply strip_trimmed.
  - rewrite <- length_split. reflexivity.
Qed.

End Success.

(** ** The processing time *)

Section ProcessingTime.

Variable E : env.

(** On the success path the clock is read twice: right before the model is
    loaded and right after the transcription. *)
Lemma success_clock_reads (argv : list pystr) (u : unit) (w : world) :
  processing E argv (init E) = (Ok u, w) ->
  exists before path after,
    calls w = before ++ [TimeTime; LoadModel; Transcribe path; TimeTime] ++ after
    /\ ~ In TimeTime before /\ ~ In TimeTime after.
Proof.
  destruct u. run_script.
  all: intros H; try discriminate; injection H as <-; cbn.
  all: first
    [ eexists [], _, []; split; [reflexivity|]; split; intros Hin; exact Hin
    | eexists [], _, [_]; split; [reflexivity|]; split; intros Hin;
        cbn in Hin; intuition discriminate
    | eexists [_; _], _, []; split; [reflexivity|]; split; intros Hin;
        cbn in Hin; intuition discriminate
    | eexists [_; _], _, [_]; split; [reflexivity|]; split; intros Hin;
        cbn in Hin; intuition discriminate ].
Qed.

(** C8, as the code has it.  On every successful invocation the
    processing time in the output is the difference of the two clock
    readings, taken right before the model is loaded and right after the
    transcription, rounded to a hundredth; it is not negative as long as
    the second reading is not earlier than the first. *)
Theorem processing_time_rounded (argv : list pystr) (w : world) :
  script E argv = (0%Z, w) ->
  let elapsed := (clock E 1 - clock E 0)%Q in
  (exists j,
      stdout w = [j]
      /\ field (py "processing_time") j = Some (JFloat (round2 elapsed)))
  /\ (exists hundredths, round2 elapsed = Qmake hundredths 100)
  /\ (Qabs (round2 elapsed - elapsed) <= 1 # 200)%Q
  /\ (exists before path after,
        calls w
        = before ++ [TimeTime; LoadModel; Transcribe path; TimeTime] ++ after
        /\ ~ In TimeTime before /\ ~ In TimeTime after)
  /\ ((clock E 0 <= clock E 1)%Q -> (0 <= round2 elapsed)%Q).
Proof.
  intros Hrun elapsed. apply script_exit_zero in Hrun as [_ Hok].
  pose proof (processing_outcome E argv (init E)) as Hout.
  rewrite Hok in Hout.
  destruct Hout as (audio_path & question & segments & _ & _ & _ & Hs).
  split; [|split; [|split; [|split]]].
  - eexists. split; [exact Hs | reflexivity].
  - eexists. reflexivity.
  - apply round2_near.
  - exact (success_clock_reads argv Hok).
  - intros Hle. apply round2_nonneg. unfold elapsed. lra.
Qed.

End ProcessingTime.

(** C8 as stated fails when the clock is set back between the two
    readings: the run succeeds and reports a negative processing time. *)
Lemma negative_processing_time :
  let r := script env_clock_set_back (sample_argv "uploads/answer.wav") in
  exit_status r = 0%Z
  /\ exists j seconds,
       stdout (final r) = [j]
       /\ field (py "processing_time") j = Some (JFloat seconds)
       /\ (seconds < 0)%Q.
Proof.
  split; [vm_compute; reflexivity|].
  eexists. exists (-100 # 100)%Q.
  split; [vm_compute; reflexivity|]. split; [vm_compute; reflexivity|].
  reflexivity.
Qed.

(** ** Format normalization *)

(** Case analysis on one run of the body of the [try], named [r]. *)
Ltac cases_of_processing r :=
  match goal with
  | |- context [processing ?E ?argv ?w] =>
      remember (processing E argv w) as r eqn:Hr; revert Hr
  end;
  unfold needs_conversion, ffmpeg_command, transcribed_path, temp_wav;
  unfold_script; cbn [nth_error];
  repeat (split_match; cbn [stdout stderr files calls clock_reads fst snd]);
  cbn [init calls app]; intros ->;
  cbn [stdout stderr files calls clock_reads fst snd exit_status final].

Ltac in_calls :=
  cbn [In calls] in *; intuition (try discriminate; try congruence).

Section Normalization.

Variable E : env.
Variables prog audio_path question : pystr.
Variable rest : list pystr.

Let argv := prog :: audio_path :: question :: rest.

Hypothesis Himport : faster_whisper_import E = None.

(** The handler makes no call. *)
Lemma calls_of_script :
  calls (final (script E argv)) = calls (snd (processing E argv (init E))).
Proof.
  rewrite (script_after_import E argv Himport).
  now destruct (processing E argv (init E)) as [[u | e | c] w].
Qed.

Lemma ffmpeg_run_iff :
  (exists args, In (SubprocessRun args) (calls (final (script E argv))))
  <-> needs_conversion E audio_path.
Proof.
  rewrite calls_of_script.
  unfold needs_conversion. rewrite <- existsb_eqb. subst argv.
  cases_of_processing r.
  all: split; [ intros [args Hin]; in_calls | intros Hc; try discriminate ].
  all: eexists; cbn [In]; right; left; reflexivity.
Qed.

Lemma ffmpeg_run_command (args : list pystr) :
  In (SubprocessRun args) (calls (final (script E argv))) ->
  args = ffmpeg_command E audio_path.
Proof.
  rewrite calls_of_script. subst argv. cases_of_processing r.
  all: intros Hin; in_calls.
Qed.

Lemma transcribe_call_path (path : pystr) :
  In (Transcribe path) (calls (final (script E argv))) ->
  path = transcribed_path E audio_path.
Proof.
  rewrite calls_of_script. subst argv. cases_of_processing r.
  all: intros Hin; in_calls.
Qed.

Lemma ffmpeg_failure_raises (e : exn) :
  needs_conversion E audio_path ->
  subprocess_result E (ffmpeg_command E audio_path) = Some e ->
  exists w,
    processing E argv (init E) = (Raise (conversion_error e), w)
    /\ ~ In LoadModel (calls w)
    /\ forall path, ~ In (Transcribe path) (calls w).
Proof.
  unfold needs_conversion. rewrite <- existsb_eqb. subst argv.
  intros Hconv Hrun. unfold ffmpeg_command, temp_wav in Hrun.
  cases_of_processing r.
  all: try discriminate.
  all: injection Hrun as ->.
  all: eexists; split;
    [ unfold conversion_error;
      match goal with H : exn_cls _ = _ |- _ => rewrite H end; reflexivity |].
  all: split; [|intros path]; intros Hin; in_calls.
Qed.

End Normalization.

(** C5.  FFmpeg is run exactly when the lower-cased extension of the audio
    path is one of .webm, .ogg, .m4a, .mp3, .opus, and then with the command
    line that writes a mono 16 kHz temporary wav; the model is handed that
    wav when the audio is converted and the original path otherwise.  When
    FFmpeg cannot be found, or exits with a non-zero status, the conversion
    step raises a runtime error saying so, the model is neither loaded nor
    run, and the process exits with status 1. *)
Theorem format_normalization
    (E : env) (prog audio_path question : pystr) (rest : list pystr) :
  faster_whisper_import E = None ->
  let argv := prog :: audio_path :: question :: rest in
  let run := final (script E argv) in
  ((exists args, In (SubprocessRun args) (calls run))
   <-> needs_conversion E audio_path)
  /\ (forall args,
        In (SubprocessRun args) (calls run) ->
        args = [py "ffmpeg"; py "-y"; py "-i"; audio_path; py "-ac"; py "1";
                py "-ar"; py "16000"; mkstemp_stem E ++ py ".wav"])
  /\ (forall path,
        In (Transcribe path) (calls run) ->
        (needs_conversion E audio_path /\ path = mkstemp_stem E ++ py ".wav")
        \/ (~ needs_conversion E audio_path /\ path = audio_path))
  /\ (needs_conversion E audio_path ->
      forall e,
        subprocess_result E (ffmpeg_command E audio_path) = Some e ->
        exists raised w,
          processing E argv (init E) = (Raise raised, w)
          /\ (exn_cls e = FileNotFoundError ->
              raised = mkExn RuntimeError
                (py "FFmpeg not found. Please install FFmpeg and ensure it is in your PATH."))
          /\ (exn_cls e = CalledProcessError ->
              raised = mkExn RuntimeError
                (py "FFmpeg failed to convert audio: " ++ exn_str e))
          /\ ~ In LoadModel (calls w)
          /\ (forall path, ~ In (Transcribe path) (calls w))
          /\ exit_status (script E argv) = 1%Z).
Proof.
  intros Himport argv run. subst run argv.
  split; [apply (ffmpeg_run_iff E prog audio_path question rest Himport)|].
  split; [intros args; apply (ffmpeg_run_command E prog audio_path question rest Himport)|].
  split.
  - intros path Hin.
    apply (transcribe_call_path E prog audio_path question rest Himport) in Hin.
    unfold transcribed_path in Hin. unfold needs_conversion.
    rewrite <- existsb_eqb.
    destruct (existsb _ _); [left | right]; split; try assumption;
      [reflexivity | discriminate].
  - intros Hconv e Hrun.
    destruct (@ffmpeg_failure_raises E prog audio_path question rest e
                Hconv Hrun)
      as (w & Hraise & Hload & Htranscribe).
    exists (conversion_error e), w. split; [exact Hraise|].
    unfold conversion_error.
    split; [intros ->; reflexivity|]. split; [intros ->; reflexivity|].
    split; [exact Hload|]. split; [exact Htranscribe|].
    apply (@script_on_raise E _ _ _ Himport Hraise).
Qed.

(** ** The properties at the sample invocations *)

(** The audio file is missing: status 1 and the error object. *)
Lemma exit_status_and_result_missing_audio :
  faster_whisper_import env_missing_audio = None
  /\ ((forall e w,
         processing env_missing_audio (sample_argv "uploads/answer.wav")
                    (init env_missing_audio) = (Raise e, w) ->
         exit_status (script env_missing_audio
                             (sample_argv "uploads/answer.wav")) = 1%Z
         /\ stdout (final (script env_missing_audio
                                  (sample_argv "uploads/answer.wav"))) =
            [ [ (py "transcript", JStr []);
                (py "feedback",
                 JStr (py "Error processing audio. Please try again."));
                (py "error",
                 JStr (error_message env_missing_audio (exn_str e)));
                (py "processing_time", JInt 0);
                (py "word_count", JInt 0) ] ])
      /\ (forall u w,
         processing env_missing_audio (sample_argv "uploads/answer.wav")
                    (init env_missing_audio) = (Ok u, w) ->
         exit_status (script env_missing_audio
                             (sample_argv "uploads/answer.wav")) = 0%Z
         /\ exists transcript feedback seconds words,
              stdout (final (script env_missing_audio
                                    (sample_argv "uploads/answer.wav"))) =
              [ [ (py "transcript", JStr transcript);
                  (py "feedback", JStr feedback);
                  (py "processing_time", JFloat seconds);
                  (py "word_count", JInt words) ] ])
      /\ (forall code w,
         processing env_missing_audio (sample_argv "uploads/answer.wav")
                    (init env_missing_audio) <> (Exit code, w))).
Proof.
  split; [reflexivity|].
  apply (@exit_status_and_result env_missing_audio
           (sample_argv "uploads/answer.wav")).
  reflexivity.
Defined.

(** The audio file is missing: the user reads that it was not found. *)
Lemma user_facing_error_message_missing_audio :
  faster_whisper_import env_missing_audio = None
  /\ processing env_missing_audio (sample_argv "uploads/answer.wav")
                (init env_missing_audio)
     = (Raise (mkExn FileNotFoundError
          (py "[Errno 2] No such file or directory: 'uploads/answer.wav'")),
        snd (processing env_missing_audio (sample_argv "uploads/answer.wav")
                        (init env_missing_audio)))
  /\ exists shown j,
       stdout (final (script env_missing_audio
                             (sample_argv "uploads/answer.wav"))) = [j]
       /\ field (py "error") j = Some (JStr shown)
       /\ error_rule
            (py "[Errno 2] No such file or directory: 'uploads/answer.wav'")
            (str_lower env_missing_audio
               (py "[Errno 2] No such file or directory: 'uploads/answer.wav'"))
            shown
       /\ forall other,
            error_rule
              (py "[Errno 2] No such file or directory: 'uploads/answer.wav'")
              (str_lower env_missing_audio
                 (py "[Errno 2] No such file or directory: 'uploads/answer.wav'"))
              other ->
            other = shown.
Proof.
  split; [reflexivity|]. split; [vm_compute; reflexivity|].
  apply (@user_facing_error_message env_missing_audio
           (sample_argv "uploads/answer.wav")
           (mkExn FileNotFoundError
              (py "[Errno 2] No such file or directory: 'uploads/answer.wav'"))
           (snd (processing env_missing_audio
                            (sample_argv "uploads/answer.wav")
                            (init env_missing_audio)))).
  - reflexivity.
  - vm_compute; reflexivity.
Defined.

(** Only the audio path is given. *)
Lemma too_few_arguments_one_argument :
  faster_whisper_import env_webm = None
  /\ List.length [py "process_answer.py"; py "uploads/answer.webm"] < 3
  /\ (processing env_webm [py "process_answer.py"; py "uploads/answer.webm"]
                 (init env_webm)
      = (Raise (mkExn IndexError (py "list index out of range")),
         init env_webm)
      /\ exit_status (script env_webm
           [py "process_answer.py"; py "uploads/answer.webm"]) = 1%Z
      /\ stdout (final (script env_webm
           [py "process_answer.py"; py "uploads/answer.webm"])) =
         [ [ (py "transcript", JStr []);
             (py "feedback",
              JStr (py "Error processing audio. Please try again."));
             (py "error",
              JStr (py "Audio processing error: list index out of range"));
             (py "processing_time", JInt 0);
             (py "word_count", JInt 0) ] ]).
Proof.
  split; [reflexivity|]. split; [simpl; lia|].
  apply (@too_few_arguments env_webm
           [py "process_answer.py"; py "uploads/answer.webm"]).
  - reflexivity.
  - simpl; lia.
Defined.

(** A converted webm recording: transcript and word count. *)
Lemma transcript_and_word_count_webm :
  script env_webm (sample_argv "uploads/answer.webm")
  = (0%Z, final (script env_webm (sample_argv "uploads/answer.webm")))
  /\ exists audio_path segments transcript j,
       nth_error (sample_argv "uploads/answer.webm") 1 = Some audio_path
       /\ transcription env_webm (transcribed_path env_webm audio_path)
          = inr segments
       /\ stdout (final (script env_webm (sample_argv "uploads/answer.webm")))
          = [j]
       /\ field (py "transcript") j = Some (JStr transcript)
       /\ trimmed (single_spaced segments) transcript
       /\ field (py "word_count") j
          = Some (JInt (Z.of_nat (count_words transcript))).
Proof.
  split; [vm_compute; reflexivity|].
  apply (@transcript_and_word_count env_webm
           (sample_argv "uploads/answer.webm")).
  vm_compute; reflexivity.
Defined.

(** A converted webm recording: two and a half seconds on the clock. *)
Lemma processing_time_rounded_webm :
  script env_webm (sample_argv "uploads/answer.webm")
  = (0%Z, final (script env_webm (sample_argv "uploads/answer.webm")))
  /\ (clock env_webm 0 <= clock env_webm 1)%Q
  /\ (exists j,
        stdout (final (script env_webm (sample_argv "uploads/answer.webm")))
        = [j]
        /\ field (py "processing_time") j
           = Some (JFloat (round2 (clock env_webm 1 - clock env_webm 0))))
  /\ (0 <= round2 (clock env_webm 1 - clock env_webm 0))%Q.
Proof.
  split; [vm_compute; reflexivity|].
  split; [vm_compute; discriminate|].
  pose proof (@processing_time_rounded env_webm
                (sample_argv "uploads/answer.webm")
                (final (script env_webm (sample_argv "uploads/answer.webm"))))
    as H.
  destruct H as (Hj & _ & _ & _ & Hpos); [vm_compute; reflexivity|].
  split; [exact Hj|]. apply Hpos. vm_compute; discriminate.
Defined.

(** FFmpeg is missing for a webm recording. *)
Lemma format_normalization_no_ffmpeg :
  faster_whisper_import env_no_ffmpeg = None
  /\ needs_conversion env_no_ffmpeg (py "uploads/answer.webm")
  /\ exists w,
       processing env_no_ffmpeg (sample_argv "uploads/answer.webm")
                  (init env_no_ffmpeg)
       = (Raise (mkExn RuntimeError
            (py "FFmpeg not found. Please install FFmpeg and ensure it is in your PATH.")),
          w)
       /\ ~ In LoadModel (calls w)
       /\ exit_status (script env_no_ffmpeg
                              (sample_argv "uploads/answer.webm")) = 1%Z.
Proof.
  split; [reflexivity|].
  assert (Hconv : needs_conversion env_no_ffmpeg (py "uploads/answer.webm")).
  { left. vm_compute. reflexivity. }
  split; [exact Hconv|].
  destruct (@format_normalization env_no_ffmpeg (py "process_answer.py")
              (py "uploads/answer.webm") (py "Tell me about a project.") []
              eq_refl)
    as (_ & _ & _ & Hfail).
  destruct (Hfail Hconv
              (mkExn FileNotFoundError
                     (py "[Errno 2] No such file or directory: 'ffmpeg'"))
              eq_refl)
    as (raised & w & Hraise & Hmissing & _ & Hload & _ & Hexit).
  exists w. rewrite (Hmissing eq_refl) in Hraise.
  split; [exact Hraise|]. split; [exact Hload | exact Hexit].
Defined.

(** FFmpeg rejects a webm recording: the user is told that FFmpeg was not
    found, and the temporary wav stays on disk. *)
Example conversion_failure :
  let r := script env_ffmpeg_fails (sample_argv "uploads/answer.webm") in
  exit_status r = 1%Z
  /\ stdout (final r)
     = [ErrorResult (py "FFmpeg not found. Please install FFmpeg.")]
  /\ calls (final r)
     = [Mkstemp (py "/tmp/tmpk3x9q2.wav");
        SubprocessRun
          (ffmpeg_command env_ffmpeg_fails (py "uploads/answer.webm"))]
  /\ file_exists (files (final r)) (py "/tmp/tmpk3x9q2.wav") = true.
Proof. vm_compute. repeat split. Qed.

(** The converted recording of the first sample: what the process prints
    and what it leaves behind. *)
Example converted_recording :
  let r := script env_webm (sample_argv "uploads/answer.webm") in
  exit_status r = 0%Z
  /\ stdout (final r)
     = [ [ (py "transcript", JStr (py "I led a PROJECT  for two years."));
           (py "feedback", JStr msg_more_detail);
           (py "processing_time", JFloat (250 # 100));
           (py "word_count", JInt 7) ] ]
  /\ files (final r) = [py "uploads/answer.webm"]
  /\ calls (final r)
     = [Mkstemp (py "/tmp/tmpk3x9q2.wav");
        SubprocessRun (ffmpeg_command env_webm (py "uploads/answer.webm"));
        TimeTime; LoadModel; Transcribe (py "/tmp/tmpk3x9q2.wav"); TimeTime;
        Remove (py "/tmp/tmpk3x9q2.wav")].
Proof. vm_compute. repeat split. Qed.

(** * Further properties *)

(** ** The exit status and the printed object *)

Section Status.

Variable E : env.

(** X1.  The exit status is 0 or 1, and it tells which object was printed:
    an object on standard output has an "error" member exactly when the
    status is not 0. *)
Theorem status_matches_object (argv : list pystr) :
  (exit_status (script E argv) = 0%Z \/ exit_status (script E argv) = 1%Z)
  /\ forall j,
       In j (stdout (final (script E argv))) ->
       (field (py "error") j = None <-> exit_status (script E argv) = 0%Z).
Proof.
  destruct (faster_whisper_import E) as [e|] eqn:Himport.
  - unfold exit_status, final, script, main, import_faster_whisper, bind,
      raise. rewrite Himport. simpl. split; [now right | intros j []].
  - rewrite (script_after_import E argv Himport).
    pose proof (processing_outcome E argv (init E)) as Hout.
    destruct (processing E argv (init E)) as [[u | e | c] w];
      unfold exit_status, final; simpl in *.
    + split; [now left|]. destruct Hout as (a & q & segs & _ & _ & _ & Hs).
      rewrite Hs. intros j [<- | []]. split; reflexivity.
    + split; [now right|]. rewrite Hout. intros j [<- | []].
      split; discriminate.
    + contradiction.
Qed.

End Status.

(** ** Files and calls *)

Lemma eqb_neq (a b : pystr) : a <> b -> eqb a b = false.
Proof.
  intros H. destruct (eqb a b) eqn:Hab; [|reflexivity].
  now apply eqb_eq in Hab.
Qed.



(** Case analysis on one run of the whole script, named [r]. *)
Ltac cases_of_script r :=
  match goal with
  | |- context [script ?E ?argv] =>
      remember (script E argv) as r eqn:Hr; revert Hr
  end;
  unfold temp_wav;
  unfold_script;
  repeat (split_match; cbn [stdout stderr files calls clock_reads fst snd]);
  cbn [init calls app]; intros ->;
  cbn [stdout stderr files calls clock_reads fst snd exit_status final].

Section Files.

Variable E : env.

(** X2.  On the success path a temporary wav that was created is removed
    before the process ends, unless [os.remove] fails. *)
Theorem temp_wav_removed_on_success (argv : list pystr) (w : world) :
  script E argv = (0%Z, w) ->
  In (Mkstemp (temp_wav E)) (calls w) ->
  remove_result E (temp_wav E) = None ->
  In (Remove (temp_wav E)) (calls w)
  /\ file_exists (files w) (temp_wav E) = false.
Proof.
  intros Hrun Hmk Hrm. split;
    [|exact (success_removes_temp_wav E argv Hrun Hmk Hrm)].
  revert Hrun Hmk Hrm. unfold temp_wav.
  pose proof (temp_wav_named E) as Hn. run_script.
  all: intros Hp Hc Hr; try discriminate.
  all: injection Hp as <-; cbn [calls init app In] in *.
  all: try congruence.
  all: try (rewrite file_exists_new in *; discriminate).
  all: intuition (try discriminate; auto).
Qed.

(** X3.  Whenever the process ends with status 1 after it has created the
    temporary wav, that file is still on disk. *)
Theorem temp_wav_left_on_every_failure (argv : list pystr) :
  exit_status (script E argv) = 1%Z ->
  In (Mkstemp (temp_wav E)) (calls (final (script E argv))) ->
  file_exists (files (final (script E argv))) (temp_wav E) = true.
Proof.
  cases_of_script r.
  all: intros Hs Hin; try discriminate; cbn [In] in Hin.
  all: try apply file_exists_new.
  all: intuition discriminate.
Qed.


End Files.

Section Calls.

Variable E : env.

(** X5.  A failure of [os.remove] changes nothing the caller sees: with any
    other answer to the removal the process ends with the same status, the
    same standard output and standard error, and made the same calls. *)
Theorem removal_failure_is_silent
    (argv : list pystr) (r : pystr -> option exn) :
  exit_status (script (set_remove_result E r) argv)
  = exit_status (script E argv)
  /\ stdout (final (script (set_remove_result E r) argv))
     = stdout (final (script E argv))
  /\ stderr (final (script (set_remove_result E r) argv))
     = stderr (final (script E argv))
  /\ calls (final (script (set_remove_result E r) argv))
     = calls (final (script E argv)).
Proof.
  unfold exit_status, final, set_remove_result. unfold_script.
  unfold str_lower, init.
  cbn [os_name unicode_lower faster_whisper_import initial_files mkstemp_stem
       subprocess_result model_load transcription clock remove_result init].
  repeat (split_match; cbn [stdout stderr files calls clock_reads fst snd]).
  all: repeat split; reflexivity.
Qed.

(** X6.  No step is tried twice: in one run there is at most one temporary
    file, one FFmpeg run, one model load, one transcription and one
    removal, and the clock is read at most twice. *)
Theorem no_step_is_retried (argv : list pystr) :
  let made := calls (final (script E argv)) in
  count_calls is_mkstemp made <= 1
  /\ count_calls is_subprocess_run made <= 1
  /\ count_calls is_load made <= 1
  /\ count_calls is_transcribe made <= 1
  /\ count_calls is_remove made <= 1
  /\ count_calls is_time made <= 2.
Proof.
  cbv zeta. cases_of_script r.
  all: cbv [count_calls filter is_mkstemp is_subprocess_run is_load
            is_transcribe is_remove is_time List.length]; lia.
Qed.

(** X7.  The steps run in order and each needs the one before: the model is
    loaded only when no FFmpeg run failed, and the audio is transcribed
    only when the model was loaded without error. *)
Theorem each_step_needs_the_previous (argv : list pystr) :
  let made := calls (final (script E argv)) in
  (In LoadModel made ->
   forall args, In (SubprocessRun args) made ->
                subprocess_result E args = None)
  /\ (forall path, In (Transcribe path) made ->
                   In LoadModel made /\ model_load E = None).
Proof.
  cbv zeta. cases_of_script r.
  all: split; [intros Hl args Hin | intros path Hin]; cbn [In] in *.
  all: intuition (try discriminate; try congruence).
Qed.


End Calls.

Section Timing.

Variable E : env.

(** X9.  The processing time leaves the conversion and the cleanup out:
    the temporary file is made and FFmpeg is run before the clock is
    first read, the model is loaded and run after that reading, and the
    temporary file is removed after the clock is last read. *)
Theorem conversion_and_cleanup_are_not_timed (argv : list pystr) :
  let made := calls (final (script E argv)) in
  (forall c, In c made -> is_mkstemp c || is_subprocess_run c = true ->
             In c (before_first_clock made))
  /\ (forall c, In c made -> is_remove c = true ->
                In c (after_last_clock made))
  /\ (forall c, In c made -> is_load c || is_transcribe c = true ->
                ~ In c (before_first_clock made)).
Proof.
  cbv zeta. cases_of_script r.
  all: cbv [after_last_clock before_first_clock rev app is_time].
  all: split; [|split]; intros c Hin Hk; cbn [In] in *.
  all: repeat (destruct Hin as [Hin | Hin]; [subst c; try discriminate|]);
       try contradiction.
  all: try (intros H'; cbn [In] in H').
  all: cbn [In]; try (intuition discriminate); auto 8.
Qed.

End Timing.

(** ** Counting the words of the segments *)

Lemma word_starts_blank_prefix (l s : pystr) :
  blank l -> word_starts true (l ++ s) = word_starts true s.
Proof.
  induction 1 as [|c l Hc Hl IH]; simpl; [reflexivity|].
  rewrite Hc. exact IH.
Qed.

Lemma word_starts_blank_suffix (b : bool) (s r : pystr) :
  blank r -> word_starts b (s ++ r) = word_starts b s.
Proof.
  intros Hr. revert b; induction s as [|c s IH]; intros b; simpl.
  - induction Hr as [|d r Hd Hr IH]; simpl; [reflexivity|].
    rewrite Hd, andb_false_r. simpl.
    clear IH. induction Hr as [|d' r Hd' Hr IH']; simpl; [reflexivity|].
    rewrite Hd'. exact IH'.
  - now rewrite IH.
Qed.

(** Trimming does not change the number of words. *)
Lemma count_words_strip (s : pystr) : count_words (strip s) = count_words s.
Proof.
  unfold count_words, strip.
  destruct (lstrip_prefix s) as [l [Hl Hbl]].
  destruct (rstrip_suffix (lstrip s)) as [r [Hr Hbr]].
  rewrite Hl at 2. rewrite (word_starts_blank_prefix _ Hbl).
  rewrite Hr at 2. now rewrite (word_starts_blank_suffix _ _ Hbr).
Qed.

Lemma word_starts_app_space (b : bool) (x y : pystr) (c : N) :
  isspace c = true ->
  word_starts b (x ++ c :: y) = word_starts b x + word_starts true y.
Proof.
  intros Hc. revert b; induction x as [|d x IH]; intros b; simpl.
  - now rewrite Hc, andb_false_r.
  - rewrite IH. lia.
Qed.

(** Joining with a space keeps the words of the parts apart. *)
Lemma count_words_join (parts : list pystr) :
  count_words (join (py " ") parts) = list_sum (List.map count_words parts).
Proof.
  unfold count_words. induction parts as [|x parts IH]; [reflexivity|].
  destruct parts as [|y parts].
  - simpl. lia.
  - change (join (py " ") (x :: y :: parts))
      with (x ++ 32%N :: join (py " ") (y :: parts)).
    rewrite word_starts_app_space by reflexivity.
    rewrite IH. reflexivity.
Qed.

Lemma lstrip_blank (s : pystr) : blank s -> lstrip s = [].
Proof. induction 1 as [|c s Hc Hs IH]; simpl; [reflexivity | now rewrite Hc]. Qed.

Lemma strip_blank (s : pystr) : blank s -> strip s = [].
Proof. intros H. unfold strip. now rewrite (lstrip_blank H). Qed.

Lemma join_blank (parts : list pystr) :
  Forall blank parts -> blank (join (py " ") parts).
Proof.
  induction 1 as [|x parts Hx Hp IH]; [constructor|].
  destruct parts as [|y parts]; [exact Hx|].
  change (join (py " ") (x :: y :: parts))
    with (x ++ 32%N :: join (py " ") (y :: parts)).
  apply Forall_app. split; [exact Hx|]. constructor; [reflexivity | exact IH].
Qed.

(** Words are at least one character long and one character apart. *)
Lemma word_starts_bound (b : bool) (s : pystr) :
  2 * word_starts b s <= List.length s + (if b then 1 else 0).
Proof.
  revert b; induction s as [|c s IH]; intros b; simpl; [lia|].
  pose proof (IH (isspace c)) as H.
  destruct b, (isspace c); simpl in *; lia.
Qed.

Section Words.

Variable E : env.

(** The output of a successful run, from the segments of the model. *)
Lemma success_output (argv : list pystr) (w : world)
    (audio_path : pystr) (segments : list pystr) :
  script E argv = (0%Z, w) ->
  nth_error argv 1 = Some audio_path ->
  transcription E (transcribed_path E audio_path) = inr segments ->
  stdout w =
  [TranscriptionResult (transcript_of segments)
     (feedback_for E (transcript_of segments))
     (clock E 1 - clock E 0)
     (count_words (transcript_of segments))].
Proof.
  intros Hrun Ha Hs. apply script_exit_zero in Hrun as [_ Hok].
  pose proof (processing_outcome E argv (init E)) as Hout.
  rewrite Hok in Hout.
  destruct Hout as (a & q & segs & Ha' & _ & Hs' & Hw).
  rewrite Ha in Ha'. injection Ha' as <-.
  rewrite Hs in Hs'. injection Hs' as <-.
  rewrite Hw, length_split. reflexivity.
Qed.

(** X10.  Silence is not an error: when the model produces no segment, or
    only whitespace, a successful run prints an empty transcript with word
    count 0 and the "more detail" feedback. *)
Theorem silence_is_a_short_answer (argv : list pystr) (w : world)
    (audio_path : pystr) (segments : list pystr) :
  script E argv = (0%Z, w) ->
  nth_error argv 1 = Some audio_path ->
  transcription E (transcribed_path E audio_path) = inr segments ->
  Forall blank segments ->
  stdout w =
  [ [ (py "transcript", JStr []);
      (py "feedback",
       JStr (py "Try to provide more detailed answers with specific examples."));
      (py "processing_time", JFloat (round2 (clock E 1 - clock E 0)));
      (py "word_count", JInt 0) ] ].
Proof.
  intros Hrun Ha Hs Hblank. rewrite (success_output argv Hrun Ha Hs).
  unfold transcript_of. rewrite (strip_blank (join_blank Hblank)).
  reflexivity.
Qed.

(** X11.  The word count of the output is the sum of the word counts of the
    segments: joining with spaces and trimming neither merges nor loses a
    word. *)
Theorem word_count_adds_up (argv : list pystr) (w : world)
    (audio_path : pystr) (segments : list pystr) :
  script E argv = (0%Z, w) ->
  nth_error argv 1 = Some audio_path ->
  transcription E (transcribed_path E audio_path) = inr segments ->
  exists j,
    stdout w = [j]
    /\ field (py "word_count") j
       = Some (JInt (Z.of_nat (list_sum (List.map count_words segments)))).
Proof.
  intros Hrun Ha Hs. rewrite (success_output argv Hrun Ha Hs).
  eexists. split; [reflexivity|].
  unfold transcript_of. rewrite count_words_strip, count_words_join.
  reflexivity.
Qed.

(** X12.  In the output of a successful run the word count is 0 exactly
    when the transcript is empty, and a transcript of [n] words is at least
    [2 n - 1] characters long. *)
Theorem word_count_and_length (argv : list pystr) (w : world) :
  script E argv = (0%Z, w) ->
  exists j transcript n,
    stdout w = [j]
    /\ field (py "transcript") j = Some (JStr transcript)
    /\ field (py "word_count") j = Some (JInt (Z.of_nat n))
    /\ (n = 0 <-> transcript = [])
    /\ 2 * n <= List.length transcript + 1.
Proof.
  intros Hrun. pose proof Hrun as Hok.
  apply script_exit_zero in Hok as [_ Hok].
  pose proof (processing_outcome E argv (init E)) as Hout.
  rewrite Hok in Hout.
  destruct Hout as (a & q & segs & Ha & _ & Hs & _).
  rewrite (success_output argv Hrun Ha Hs).
  do 3 eexists. split; [reflexivity|]. split; [reflexivity|].
  split; [reflexivity|]. split.
  - unfold transcript_of.
    destruct (strip_trimmed (join (py " ") segs)) as (_ & Hhead & _).
    destruct (strip (join (py " ") segs)) as [|c t] eqn:Ht.
    + split; reflexivity.
    + split; [|discriminate]. unfold count_words. simpl.
      rewrite (Hhead c t eq_refl). simpl. discriminate.
  - apply (word_starts_bound true).
Qed.

End Words.

(** ** What the user reads when the conversion fails *)

Lemma startswith_other_head (a c : N) (sub s : pystr) :
  a <> c -> startswith (a :: sub) (c :: s) = false.
Proof. intros H. simpl. apply N.eqb_neq in H. now rewrite H. Qed.

(** A prefix without the first character of [sub] only shifts the search. *)
Lemma find_from_skip (a : N) (sub prefix s : pystr) (i : Z) :
  Forall (fun c => a <> c) prefix ->
  find_from (prefix ++ s) (a :: sub) i
  = find_from s (a :: sub) (i + Z.of_nat (List.length prefix))%Z.
Proof.
  intros H. revert i; induction H as [|c prefix Hc Hp IH]; intros i.
  - simpl. f_equal. lia.
  - cbn [app find_from]. rewrite (startswith_other_head sub _ Hc), IH.
    f_equal. simpl List.length. lia.
Qed.

Lemma find_from_start (s sub : pystr) (i j : Z) :
  (0 <= i)%Z -> (0 <= j)%Z ->
  (find_from s sub i =? -1)%Z = (find_from s sub j =? -1)%Z.
Proof.
  intros Hi Hj.
  destruct (Z.eqb_spec (find_from s sub i) (-1)) as [H | H];
    destruct (Z.eqb_spec (find_from s sub j) (-1)) as [H' | H'];
    try reflexivity.
  - apply find_from_absent in H; [|exact Hi].
    contradict H. now apply find_from_found in H'.
  - apply find_from_absent in H'; [|exact Hj].
    contradict H'. now apply find_from_found in H.
Qed.

Lemma str_in_skip (a : N) (sub prefix s : pystr) :
  Forall (fun c => a <> c) prefix ->
  str_in (a :: sub) (prefix ++ s) = str_in (a :: sub) s.
Proof.
  intros H. unfold str_in, find. rewrite (find_from_skip sub s 0%Z H).
  f_equal. apply find_from_start; lia.
Qed.

Section ConversionMessage.

Variable E : env.

Lemma error_message_conversion_failed (m : pystr) :
  ~ contains m (py "No module named") ->
  error_message E (py "FFmpeg failed to convert audio: " ++ m)
  = py "FFmpeg not found. Please install FFmpeg.".
Proof.
  intros Hm. unfold error_message.
  change (py "No module named") with (78%N :: py "o module named").
  rewrite str_in_skip.
  - apply str_in_false in Hm.
    change (78%N :: py "o module named") with (py "No module named").
    rewrite Hm. reflexivity.
  - vm_compute. repeat constructor; discriminate.
Qed.

(** X13.  Whatever went wrong with FFmpeg, the user reads that it was not
    found: both when it is missing and when it ran and exited with a
    non-zero status (the status and the command never reach the output),
    as long as the text of that failure does not contain "No module
    named". *)
Theorem conversion_failure_reads_not_found
    (prog audio_path question : pystr) (rest : list pystr) (e : exn) :
  faster_whisper_import E = None ->
  needs_conversion E audio_path ->
  subprocess_result E (ffmpeg_command E audio_path) = Some e ->
  exn_cls e = FileNotFoundError
  \/ (exn_cls e = CalledProcessError
      /\ ~ contains (exn_str e) (py "No module named")) ->
  stdout (final (script E (prog :: audio_path :: question :: rest)))
  = [ [ (py "transcript", JStr []);
        (py "feedback", JStr (py "Error processing audio. Please try again."));
        (py "error", JStr (py "FFmpeg not found. Please install FFmpeg."));
        (py "processing_time", JInt 0);
        (py "word_count", JInt 0) ] ].
Proof.
  intros Himport Hconv Hrun Hcls.
  destruct (ffmpeg_failure_raises prog question rest Hconv Hrun)
    as (w & Hraise & _).
  destruct (@script_on_raise E _ _ _ Himport Hraise) as [_ Hout].
  rewrite Hout. unfold conversion_error.
  destruct Hcls as [-> | [-> Hm]]; cbn [exn_str].
  - reflexivity.
  - now rewrite (error_message_conversion_failed Hm).
Qed.

End ConversionMessage.

(** ** The extension of a path *)

Lemma startswith_char (a c : N) (r : pystr) :
  startswith [a] (c :: r) = (a =? c)%N.
Proof. simpl. apply andb_true_r. Qed.

Lemma rfind_from_no_char (a : N) (s : pystr) (i best : Z) :
  ~ In a s -> rfind_from s [a] i best = best.
Proof.
  revert i best; induction s as [|c s IH]; intros i best Hs;
    [reflexivity|].
  cbn [rfind_from]. rewrite startswith_char.
  destruct (N.eqb_spec a c) as [-> | Hac]; [contradict Hs; now left|].
  apply IH. intros H. apply Hs. now right.
Qed.

(** The search from the right stops at the last occurrence. *)
Lemma rfind_from_last (a : N) (pre post : pystr) (i best : Z) :
  ~ In a post ->
  rfind_from (pre ++ a :: post) [a] i best
  = (i + Z.of_nat (List.length pre))%Z.
Proof.
  intros Hpost. revert i best; induction pre as [|c pre IH]; intros i best.
  - cbn [app rfind_from]. rewrite startswith_char, N.eqb_refl.
    rewrite rfind_from_no_char by exact Hpost. simpl. lia.
  - cbn [app rfind_from]. rewrite IH. simpl List.length. lia.
Qed.

Lemma last_occurrence (a : N) (s : pystr) :
  In a s -> exists pre post, s = pre ++ a :: post /\ ~ In a post.
Proof.
  induction s as [|c s IH]; [intros []|].
  intros Hin. destruct (in_dec N.eq_dec a s) as [Hs | Hs].
  - destruct (IH Hs) as (pre & post & -> & Hp). now exists (c :: pre), post.
  - destruct Hin as [-> | Hin]; [|contradiction]. now exists [], s.
Qed.

(** [s.rfind(c)] for a character [c]: -1 when there is none, else the
    position of the last one. *)
Lemma rfind_char (a : N) (s : pystr) :
  (~ In a s /\ rfind s [a] = (-1)%Z)
  \/ exists pre post,
       s = pre ++ a :: post /\ ~ In a post
       /\ rfind s [a] = Z.of_nat (List.length pre).
Proof.
  unfold rfind. destruct (in_dec N.eq_dec a s) as [Hs | Hs].
  - right. destruct (last_occurrence a s Hs) as (pre & post & -> & Hp).
    exists pre, post. split; [reflexivity|]. split; [exact Hp|].
    rewrite rfind_from_last by exact Hp. lia.
  - left. split; [exact Hs | now apply rfind_from_no_char].
Qed.

Lemma rfind_char_lower_bound (a : N) (s : pystr) : (-1 <= rfind s [a])%Z.
Proof.
  destruct (rfind_char a s) as [[_ ->] | (pre & post & _ & _ & ->)]; lia.
Qed.

Lemma in_skipn (a : N) (n : nat) (s : pystr) : In a (skipn n s) -> In a s.
Proof.
  intros H. rewrite <- (firstn_skipn n s). apply in_or_app. now right.
Qed.

(** No [a] after position [n] of [s], when the last [a] is before [n]. *)
Lemma none_after_rfind (a : N) (s : pystr) (n : nat) :
  (rfind s [a] < Z.of_nat n)%Z -> ~ In a (skipn n s).
Proof.
  intros Hlt Hin.
  destruct (rfind_char a s) as [[Hs _] | (pre & post & -> & Hp & Hr)].
  - apply Hs. now apply in_skipn in Hin.
  - rewrite Hr in Hlt. apply Hp.
    rewrite skipn_app, skipn_all2 in Hin by lia. cbn [app] in Hin.
    destruct (n - List.length pre) as [|k] eqn:Hk; [lia|].
    cbn [skipn] in Hin. now apply in_skipn in Hin.
Qed.

Lemma name_before_dot_found (p : pystr) (i j : Z) (n : nat) :
  (i <= j < i + Z.of_nat n)%Z ->
  eqb (slice p j (j + 1)) extsep = false ->
  name_before_dot p i n = true.
Proof.
  revert i; induction n as [|n IH]; intros i Hj Hc; [lia|].
  cbn [name_before_dot].
  destruct (eqb (slice p i (i + 1)) extsep) eqn:Hi; [|reflexivity].
  cbn [negb]. apply IH; [|exact Hc].
  assert (i <> j) by (intros ->; congruence). lia.
Qed.

Lemma extsep_dot : extsep = [46%N].
Proof. reflexivity. Qed.

Lemma sep_index_bound (o : platform) (p : pystr) (n : nat) :
  ~ In 47%N (skipn n p) -> ~ In 92%N (skipn n p) ->
  (match altsep o with
   | Some a => Z.max (rfind p (sep o)) (rfind p a)
   | None => rfind p (sep o)
   end < Z.of_nat n)%Z.
Proof.
  intros H47 H92.
  assert (Hb : forall a, ~ In a (skipn n p) -> (rfind p [a] < Z.of_nat n)%Z).
  { intros a Ha.
    destruct (rfind_char a p) as [[_ ->] | (pre & post & -> & _ & ->)]; [lia|].
    destruct (Nat.lt_ge_cases (List.length pre) n) as [Hlt | Hge]; [lia|].
    contradict Ha. rewrite skipn_app.
    apply in_or_app. right.
    replace (n - List.length pre) with 0 by lia. now left. }
  destruct o; cbn [altsep sep].
  - exact (Hb 47%N H47).
  - apply Z.max_lub_lt; [exact (Hb 92%N H92) | exact (Hb 47%N H47)].
Qed.

(** Splitting what was joined: a name that ends in a character other than
    a period or a separator, followed by an extension without period or
    separator. *)
Lemma splitext_join (o : platform) (stem : pystr) (c : N) (e : pystr) :
  c <> 46%N -> c <> 47%N -> c <> 92%N ->
  ~ In 46%N e -> ~ In 47%N e -> ~ In 92%N e ->
  splitext o (stem ++ c :: 46%N :: e) = (stem ++ [c], 46%N :: e).
Proof.
  intros Hc46 Hc47 Hc92 He46 He47 He92.
  set (p := stem ++ c :: 46%N :: e).
  assert (Hp : p = (stem ++ [c]) ++ 46%N :: e)
    by (unfold p; now rewrite <- app_assoc).
  assert (Hdot : rfind p extsep = Z.of_nat (List.length (stem ++ [c]))).
  { rewrite extsep_dot, Hp. unfold rfind.
    rewrite rfind_from_last by exact He46. lia. }
  assert (Htail : skipn (List.length stem) p = c :: 46%N :: e).
  { unfold p. rewrite skipn_app, skipn_all, Nat.sub_diag. reflexivity. }
  assert (Hsep := @sep_index_bound o p (List.length stem)).
  rewrite Htail in Hsep.
  assert (H47 : ~ In 47%N (c :: 46%N :: e)).
  { intros [H | [H | H]]; [now apply Hc47 | discriminate | now apply He47]. }
  assert (H92 : ~ In 92%N (c :: 46%N :: e)).
  { intros [H | [H | H]]; [now apply Hc92 | discriminate | now apply He92]. }
  specialize (Hsep H47 H92).
  unfold splitext. fold p. rewrite Hdot.
  set (sepIndex := match altsep o with
                   | Some a => Z.max (rfind p (sep o)) (rfind p a)
                   | None => rfind p (sep o)
                   end) in *.
  assert (Hlow : (-1 <= sepIndex)%Z).
  { unfold sepIndex. pose proof (rfind_char_lower_bound 47%N p).
    pose proof (rfind_char_lower_bound 92%N p).
    destruct o; cbn [altsep sep]; change (py "/") with [47%N];
      change (py "\") with [92%N]; lia. }
  rewrite length_app in *. cbn [List.length] in *.
  assert (Hcond : (sepIndex <? Z.of_nat (List.length stem + 1))%Z = true)
    by (apply Z.ltb_lt; lia).
  rewrite Hcond. cbn [andb].
  rewrite (@name_before_dot_found p (sepIndex + 1)
             (Z.of_nat (List.length stem))).
  - f_equal.
    + unfold slice. rewrite Z.sub_0_r, Nat2Z.id. cbn [Z.to_nat skipn].
      rewrite Hp. rewrite firstn_app.
      replace (List.length stem + 1) with (List.length (stem ++ [c]))
        by (rewrite length_app; reflexivity).
      rewrite firstn_all, Nat.sub_diag. cbn [firstn]. apply app_nil_r.
    + rewrite Nat2Z.id, Hp.
      replace (List.length stem + 1) with (List.length (stem ++ [c]))
        by (rewrite length_app; reflexivity).
      rewrite skipn_app, skipn_all, Nat.sub_diag. reflexivity.
  - lia.
  - unfold slice. rewrite Nat2Z.id, Htail.
    replace (Z.of_nat (List.length stem) + 1 - Z.of_nat (List.length stem))%Z
      with 1%Z by lia.
    change (Z.to_nat 1) with 1. cbn [firstn].
    destruct (eqb [c] extsep) eqn:Heq; [|reflexivity].
    apply eqb_eq in Heq. injection Heq as Heq. contradiction.
Qed.

(** X14.  [os.path.splitext] cuts the path in two without losing a
    character, and the extension is either empty or a period followed by
    characters among which there is no period and no path separator. *)
Theorem splitext_parts (o : platform) (p : pystr) :
  fst (splitext o p) ++ snd (splitext o p) = p
  /\ (snd (splitext o p) = []
      \/ exists rest,
           snd (splitext o p) = 46%N :: rest
           /\ ~ In 46%N rest
           /\ ~ In 47%N rest
           /\ (o = Windows -> ~ In 92%N rest)).
Proof.
  unfold splitext.
  set (sepIndex := match altsep o with
                   | Some a => Z.max (rfind p (sep o)) (rfind p a)
                   | None => rfind p (sep o)
                   end).
  destruct ((sepIndex <? rfind p extsep)%Z
            && name_before_dot p (sepIndex + 1)
                 (Z.to_nat (rfind p extsep - (sepIndex + 1)))) eqn:Hcond;
    cbn [fst snd]; [|split; [apply app_nil_r | now left]].
  apply andb_true_iff in Hcond as [Hlt _]. apply Z.ltb_lt in Hlt.
  assert (H47 : (rfind p [47%N] <= sepIndex)%Z)
    by (unfold sepIndex; destruct o; cbn [altsep sep];
        change (py "/") with [47%N]; lia).
  assert (H92 : o = Windows -> (rfind p [92%N] <= sepIndex)%Z)
    by (intros ->; unfold sepIndex; cbn [altsep sep];
        change (py "\") with [92%N]; lia).
  pose proof (rfind_char_lower_bound 47%N p) as Hlow.
  rewrite extsep_dot in *.
  destruct (rfind_char 46%N p) as [[_ Hd] | (pre & post & Hp & Hpost & Hd)];
    [lia|].
  rewrite Hd in *. unfold slice. rewrite Z.sub_0_r, Nat2Z.id. cbn [Z.to_nat skipn].
  split; [apply firstn_skipn|]. right. exists post.
  assert (Htail : skipn (S (List.length pre)) p = post).
  { rewrite Hp. change (S (List.length pre)) with (1 + List.length pre).
    rewrite <- skipn_skipn, skipn_app, skipn_all, Nat.sub_diag.
    reflexivity. }
  split; [rewrite Hp at 1; now rewrite skipn_app, skipn_all, Nat.sub_diag|].
  split; [exact Hpost|]. rewrite <- Htail. split.
  - apply none_after_rfind. lia.
  - intros Ho. apply none_after_rfind. specialize (H92 Ho). lia.
Qed.

Lemma ascii_lower_fixed (a : N) :
  (a < 65)%N \/ (90 < a)%N -> ascii_lower a = a.
Proof.
  intros H. unfold ascii_lower.
  destruct (N.leb_spec 65 a), (N.leb_spec a 90); cbn [andb]; try reflexivity.
  lia.
Qed.

Lemma ascii_lower_period (h : N) : ascii_lower h = 46%N -> h = 46%N.
Proof.
  unfold ascii_lower.
  destruct (N.leb_spec 65 h), (N.leb_spec h 90); cbn [andb]; lia.
Qed.

Lemma not_in_lowered (a : N) (e low : pystr) :
  List.map ascii_lower e = low -> ascii_lower a = a -> ~ In a low ->
  ~ In a e.
Proof.
  intros <- Ha Hlow Hin. apply Hlow. rewrite <- Ha. now apply in_map.
Qed.

Section Extension.

Variable E : env.

(** X15.  A path whose name ends in .webm, .ogg, .m4a, .mp3 or .opus,
    in any mix of upper and lower case, is converted; a path without any
    period is not. *)
Theorem extension_decides_conversion :
  (forall stem c ext,
      c <> 46%N -> c <> 47%N -> c <> 92%N ->
      In (List.map ascii_lower ext) CONVERTED_EXTENSIONS ->
      is_ascii ext ->
      needs_conversion E (stem ++ c :: ext))
  /\ (forall p, ~ In 46%N p -> ~ needs_conversion E p).
Proof.
  split.
  - intros stem c ext Hc46 Hc47 Hc92 Hin Hascii.
    assert (Hshape : exists e, ext = 46%N :: e
              /\ ~ In 46%N e /\ ~ In 47%N e /\ ~ In 92%N e).
    { destruct ext as [|h e];
        [cbn in Hin; intuition discriminate|].
      exists e.
      assert (Hh : ascii_lower h = 46%N /\
                   In (List.map ascii_lower e)
                      [py "webm"; py "ogg"; py "m4a"; py "mp3"; py "opus"]).
      { cbn [List.map CONVERTED_EXTENSIONS In] in Hin. cbn [In].
        repeat (destruct Hin as [Hin | Hin];
                [injection Hin as Hh He; split; [now rewrite Hh | tauto]|]).
        contradiction. }
      destruct Hh as [Hh He]. apply ascii_lower_period in Hh. subst h.
      split; [reflexivity|].
      cbn [In] in He.
      repeat split.
      all: repeat (destruct He as [He | He];
             [ symmetry in He;
               apply (not_in_lowered _ He);
                 [ apply ascii_lower_fixed; lia
                 | vm_compute; intuition discriminate ] |]).
      all: contradiction. }
    destruct Hshape as (e & -> & He46 & He47 & He92).
    unfold needs_conversion.
    rewrite (@splitext_join (os_name E) stem c e Hc46 Hc47 Hc92 He46 He47 He92).
    cbn [snd]. now rewrite (@lower_ascii E _ Hascii).
  - intros p Hp Hconv. unfold needs_conversion, splitext in Hconv.
    rewrite extsep_dot in Hconv.
    destruct (rfind_char 46%N p) as [[_ Hd] | (pre & post & -> & _ & _)].
    + rewrite Hd in Hconv.
      assert (Hlow : (-1 <= match altsep (os_name E) with
                            | Some a => Z.max (rfind p (sep (os_name E))) (rfind p a)
                            | None => rfind p (sep (os_name E))
                            end)%Z).
      { pose proof (rfind_char_lower_bound 47%N p).
        pose proof (rfind_char_lower_bound 92%N p).
        destruct (os_name E); cbn [altsep sep]; change (py "/") with [47%N];
          change (py "\") with [92%N]; lia. }
      apply Z.ltb_ge in Hlow. rewrite Hlow in Hconv. cbn [andb snd] in Hconv.
      vm_compute in Hconv. intuition discriminate.
    + apply Hp. apply in_or_app. right. now left.
Qed.

End Extension.

(** ** The model prefetcher *)


Section Prefetcher.

Variable E : env.




End Prefetcher.

(** ** The further properties at the sample invocations *)

(** The converted recording: its temporary wav is gone at the end. *)
Lemma temp_wav_removed_on_success_webm :
  script env_webm (sample_argv "uploads/answer.webm")
  = (0%Z, final (script env_webm (sample_argv "uploads/answer.webm")))
  /\ In (Mkstemp (temp_wav env_webm))
        (calls (final (script env_webm (sample_argv "uploads/answer.webm"))))
  /\ remove_result env_webm (temp_wav env_webm) = None
  /\ In (Remove (temp_wav env_webm))
        (calls (final (script env_webm (sample_argv "uploads/answer.webm"))))
  /\ file_exists
       (files (final (script env_webm (sample_argv "uploads/answer.webm"))))
       (temp_wav env_webm) = false.
Proof.
  assert (Hrun : script env_webm (sample_argv "uploads/answer.webm")
                 = (0%Z, final (script env_webm
                                       (sample_argv "uploads/answer.webm"))))
    by (vm_compute; reflexivity).
  assert (Hmk : In (Mkstemp (temp_wav env_webm))
                   (calls (final (script env_webm
                                         (sample_argv "uploads/answer.webm")))))
    by (vm_compute; left; reflexivity).
  split; [exact Hrun|]. split; [exact Hmk|]. split; [reflexivity|].
  exact (@temp_wav_removed_on_success env_webm
           (sample_argv "uploads/answer.webm") _ Hrun Hmk eq_refl).
Defined.

(** The transcription fails after the conversion: the wav stays. *)
Lemma temp_wav_left_on_every_failure_transcription :
  exit_status (script env_transcription_fails
                      (sample_argv "uploads/answer.webm")) = 1%Z
  /\ In (Mkstemp (temp_wav env_transcription_fails))
        (calls (final (script env_transcription_fails
                              (sample_argv "uploads/answer.webm"))))
  /\ file_exists
       (files (final (script env_transcription_fails
                             (sample_argv "uploads/answer.webm"))))
       (temp_wav env_transcription_fails) = true.
Proof.
  assert (Hs : exit_status (script env_transcription_fails
                                   (sample_argv "uploads/answer.webm")) = 1%Z)
    by (vm_compute; reflexivity).
  assert (Hmk : In (Mkstemp (temp_wav env_transcription_fails))
                   (calls (final (script env_transcription_fails
                                         (sample_argv "uploads/answer.webm")))))
    by (vm_compute; left; reflexivity).
  split; [exact Hs|]. split; [exact Hmk|].
  exact (@temp_wav_left_on_every_failure env_transcription_fails
           (sample_argv "uploads/answer.webm") Hs Hmk).
Defined.



(** A recording in which the model finds only whitespace. *)
Lemma silence_is_a_short_answer_sample :
  script env_silence (sample_argv "uploads/answer.wav")
  = (0%Z, final (script env_silence (sample_argv "uploads/answer.wav")))
  /\ nth_error (sample_argv "uploads/answer.wav") 1
     = Some (py "uploads/answer.wav")
  /\ transcription env_silence
       (transcribed_path env_silence (py "uploads/answer.wav"))
     = inr [py " "; []; py "  "]
  /\ Forall blank [py " "; []; py "  "]
  /\ stdout (final (script env_silence (sample_argv "uploads/answer.wav")))
     = [ [ (py "transcript", JStr []);
           (py "feedback",
            JStr (py "Try to provide more detailed answers with specific examples."));
           (py "processing_time",
            JFloat (round2 (clock env_silence 1 - clock env_silence 0)));
           (py "word_count", JInt 0) ] ].
Proof.
  assert (Hrun : script env_silence (sample_argv "uploads/answer.wav")
                 = (0%Z, final (script env_silence
                                       (sample_argv "uploads/answer.wav"))))
    by (vm_compute; reflexivity).
  assert (Hblank : Forall blank [py " "; []; py "  "])
    by (repeat constructor).
  split; [exact Hrun|]. split; [reflexivity|]. split; [reflexivity|].
  split; [exact Hblank|].
  exact (@silence_is_a_short_answer env_silence
           (sample_argv "uploads/answer.wav") _ (py "uploads/answer.wav")
           [py " "; []; py "  "] Hrun eq_refl eq_refl Hblank).
Defined.

(** The converted recording: four words and three words. *)
Lemma word_count_adds_up_webm :
  script env_webm (sample_argv "uploads/answer.webm")
  = (0%Z, final (script env_webm (sample_argv "uploads/answer.webm")))
  /\ nth_error (sample_argv "uploads/answer.webm") 1
     = Some (py "uploads/answer.webm")
  /\ transcription env_webm
       (transcribed_path env_webm (py "uploads/answer.webm"))
     = inr [py " I led a PROJECT"; py " for two years. "]
  /\ exists j,
       stdout (final (script env_webm (sample_argv "uploads/answer.webm")))
       = [j]
       /\ field (py "word_count") j
          = Some (JInt (Z.of_nat
               (list_sum (List.map count_words
                  [py " I led a PROJECT"; py " for two years. "])))).
Proof.
  assert (Hrun : script env_webm (sample_argv "uploads/answer.webm")
                 = (0%Z, final (script env_webm
                                       (sample_argv "uploads/answer.webm"))))
    by (vm_compute; reflexivity).
  split; [exact Hrun|]. split; [reflexivity|]. split; [reflexivity|].
  exact (@word_count_adds_up env_webm (sample_argv "uploads/answer.webm") _
           (py "uploads/answer.webm")
           [py " I led a PROJECT"; py " for two years. "]
           Hrun eq_refl eq_refl).
Defined.

(** The converted recording: seven words in thirty-one characters. *)
Lemma word_count_and_length_webm :
  script env_webm (sample_argv "uploads/answer.webm")
  = (0%Z, final (script env_webm (sample_argv "uploads/answer.webm")))
  /\ exists j transcript n,
       stdout (final (script env_webm (sample_argv "uploads/answer.webm")))
       = [j]
       /\ field (py "transcript") j = Some (JStr transcript)
       /\ field (py "word_count") j = Some (JInt (Z.of_nat n))
       /\ (n = 0 <-> transcript = [])
       /\ 2 * n <= List.length transcript + 1.
Proof.
  assert (Hrun : script env_webm (sample_argv "uploads/answer.webm")
                 = (0%Z, final (script env_webm
                                       (sample_argv "uploads/answer.webm"))))
    by (vm_compute; reflexivity).
  split; [exact Hrun|].
  exact (@word_count_and_length env_webm (sample_argv "uploads/answer.webm")
           _ Hrun).
Defined.

(** FFmpeg exits with status 1 on the recording. *)
Lemma conversion_failure_reads_not_found_status_1 :
  faster_whisper_import env_ffmpeg_fails = None
  /\ needs_conversion env_ffmpeg_fails (py "uploads/answer.webm")
  /\ stdout (final (script env_ffmpeg_fails
                            (sample_argv "uploads/answer.webm")))
     = [ [ (py "transcript", JStr []);
           (py "feedback",
            JStr (py "Error processing audio. Please try again."));
           (py "error", JStr (py "FFmpeg not found. Please install FFmpeg."));
           (py "processing_time", JInt 0);
           (py "word_count", JInt 0) ] ].
Proof.
  assert (Hconv : needs_conversion env_ffmpeg_fails
                    (py "uploads/answer.webm"))
    by (left; vm_compute; reflexivity).
  split; [reflexivity|]. split; [exact Hconv|].
  apply (@conversion_failure_reads_not_found env_ffmpeg_fails
           (py "process_answer.py") (py "uploads/answer.webm")
           (py "Tell me about a project.") []
           (mkExn CalledProcessError
              (py "Command '['ffmpeg', '-y', '-i', 'uploads/answer.webm', '-ac', '1', '-ar', '16000', '/tmp/tmpk3x9q2.wav']' returned non-zero exit status 1."))).
  - reflexivity.
  - exact Hconv.
  - reflexivity.
  - right. split; [reflexivity|].
    apply str_in_false. vm_compute. reflexivity.
Defined.

(** An upper-case extension. *)
Lemma extension_decides_conversion_upper_case :
  needs_conversion env_webm (py "uploads/Answer.WebM")
  /\ ~ needs_conversion env_webm (py "uploads/answer").
Proof.
  destruct (extension_decides_conversion env_webm) as [Hyes Hno].
  split.
  - apply (Hyes (py "uploads/Answe") 114%N (py ".WebM")).
    + discriminate.
    + discriminate.
    + discriminate.
    + left. vm_compute. reflexivity.
    + vm_compute. repeat constructor.
  - apply Hno. vm_compute. intuition discriminate.
Defined.


(** The temporary wav cannot be removed: the caller sees the same result
    and the file stays. *)
Example removal_failure :
  let r := script env_remove_fails (sample_argv "uploads/answer.webm") in
  exit_status r = 0%Z
  /\ stdout (final r)
     = stdout (final (script env_webm (sample_argv "uploads/answer.webm")))
  /\ files (final r) = [py "/tmp/tmpk3x9q2.wav"; py "uploads/answer.webm"].
Proof. vm_compute. repeat split. Qed.

(** The download fails: what the prefetcher prints. *)
Example failed_download :
  download_whisper_model env_download_fails
  = (1%Z,
     mkConsole
       [128317%N :: py " Downloading Whisper 'tiny' model...";
        128230%N :: py " This is a one-time download (~75MB)";
        9203%N :: py " Please wait, this should only take 1-2 minutes..."
          ++ [10%N];
        10%N :: 10060%N
          :: py " Error downloading model: Failed to reach huggingface.co";
        10%N :: 128161%N :: py " Troubleshooting:";
        py "   1. Check your internet connection";
        py "   2. Try running again (download will resume)";
        py "   3. If issues persist, you can use text answers instead"]
       [] [LoadModel]).
Proof. vm_compute. reflexivity. Qed.
